(** * FastFuels SDK: the treelist client and the status-polling loop

    A shallow embedding of [fastfuels_sdk/treelists.py] and of the polling
    loops of [tests/test_fuelgrid.py].  Python exceptions become the [Raise]
    branch of a result type; the HTTP session (a mutable global of the
    package) becomes an explicit world threaded through a small
    state-and-exception monad. *)

From Stdlib Require Import String Ascii List ZArith Bool Lia DecimalString.
Import ListNotations.
Open Scope string_scope.
Open Scope Z_scope.

Set Implicit Arguments.

(** ** Decoded JSON values

    What [response.json()] hands back.  Objects are association lists: a
    Python dict keeps insertion order and [json.dumps] emits in that order. *)

#[warnings="-register-all"]
Inductive json : Type :=
| JNull
| JBool (b : bool)
| JInt (n : Z)
| JFloat (mantissa exponent : Z)      (* the float mantissa * 10 ^ exponent *)
| JStr (s : string)
| JArr (items : list json)
| JObj (fields : list (string * json)).

(** [d.get(k)] on the fields of an object. *)
Fixpoint lookup (k : string) (kw : list (string * json)) : option json :=
  match kw with
  | [] => None
  | (k', v) :: rest => if String.eqb k k' then Some v else lookup k rest
  end.

(** [k in names], for a list of strings. *)
Fixpoint mem (k : string) (names : list string) : bool :=
  match names with
  | [] => false
  | n :: rest => String.eqb k n || mem k rest
  end.

(** [v == s] for a decoded value [v] and a string literal [s]. *)
Definition eq_str (v : json) (s : string) : bool :=
  match v with
  | JStr x => String.eqb x s
  | _ => false
  end.

(** The characters of a string, each as a one-character string: what
    iterating over a Python [str] yields. *)
Fixpoint chars (s : string) : list json :=
  match s with
  | EmptyString => []
  | String c rest => JStr (String c EmptyString) :: chars rest
  end.

(** ** Structured time values *)

Record datetime : Type := mk_datetime {
  year : Z; month : Z; day : Z;
  hour : Z; minute : Z; second : Z; microsecond : Z;
  utcoffset : option Z
}.

(** ** Exceptions and results *)

Inductive exn : Type :=
| ValueError (msg : string)
| HTTPError (body : json)
| TypeError
| KeyError (key : string)
| AttributeError
| JSONDecodeError
| ConnectionError.

Inductive result (A : Type) : Type :=
| Return (a : A)
| Raise (e : exn).
Arguments Return {A} a.
Arguments Raise {A} e.

Definition rbind {A B} (r : result A) (k : A -> result B) : result B :=
  match r with
  | Return a => k a
  | Raise e => Raise e
  end.

(** A list comprehension whose element expression may raise: elements are
    evaluated left to right and the first exception ends the evaluation. *)
Fixpoint comprehension {A B} (f : A -> result B) (xs : list A) : result (list B) :=
  match xs with
  | [] => Return []
  | x :: rest =>
      rbind (f x) (fun y =>
      rbind (comprehension f rest) (fun ys => Return (y :: ys)))
  end.

(** ** The HTTP session *)

Inductive http_method : Type := GET | POST | PATCH | PUT | DELETE.

Record request : Type := mk_request {
  verb : http_method;
  url : string;
  data : option string;               (* the [data=] body *)
  files : list (string * string)      (* the [files=] parts: field name, content *)
}.

Record response : Type := mk_response {
  status_code : Z;
  json_body : option json             (* [None]: the body is not JSON *)
}.

(** The world an operation runs in.  [respond] is the remote service seen
    through [SESSION]: given every request sent so far, the last one being
    the current one, it answers with a response or fails in transport.
    [calls] logs the requests sent and [slept] the time spent in [sleep]. *)
Record world : Type := mk_world {
  respond : list request -> option response;
  calls : list request;
  slept : Z
}.

Definition M (A : Type) : Type := world -> result A * world.

Definition ret {A} (a : A) : M A := fun w => (Return a, w).
Definition raise {A} (e : exn) : M A := fun w => (Raise e, w).
Definition bind {A B} (m : M A) (k : A -> M B) : M B :=
  fun w => match m w with
           | (Return a, w') => k a w'
           | (Raise e, w') => (Raise e, w')
           end.
Definition lift {A} (r : result A) : M A := fun w => (r, w).

Notation "x <- m ;; k" := (bind m (fun x => k))
  (at level 61, m at next level, right associativity).
Notation "m ;;; k" := (bind m (fun _ => k))
  (at level 61, right associativity).

(** [SESSION.<verb>(url, ...)]: one request, logged, and its response. *)
Definition send (req : request) : M response :=
  fun w =>
    let sent := (calls w ++ [req])%list in
    let w' := mk_world (respond w) sent (slept w) in
    match respond w sent with
    | Some resp => (Return resp, w')
    | None => (Raise ConnectionError, w')
    end.

(** [response.json()] *)
Definition json_of (resp : response) : M json :=
  match json_body resp with
  | Some b => ret b
  | None => raise JSONDecodeError
  end.

(** [time.sleep(n)] *)
Definition sleep (n : Z) : M unit :=
  fun w => (Return tt, mk_world (respond w) (calls w) (slept w + n)).

Notation "x <~ r ;; k" := (rbind r (fun x => k))
  (at level 61, r at next level, right associativity).

(** ** What the package takes from outside

    [API_URL] is a constant of the package's [__init__] module;
    [fromisoformat] is [datetime.fromisoformat] on a [str] ([None]: it raises
    [ValueError]); [json_dumps] is [json.dumps]; [DataFrame] and [to_csv] are
    pandas' table type and the CSV text [DataFrame.to_csv(path, index=False)]
    writes.  The client is stated over any of them. *)
Class Platform : Type := {
  API_URL : string;
  fromisoformat : string -> option datetime;
  json_dumps : json -> string;
  DataFrame : Type;
  to_csv : DataFrame -> string
}.

(** ** Keyword-argument calls *)

(** Unpacking a value as keyword arguments needs a mapping. *)
Definition as_mapping (v : json) : result (list (string * json)) :=
  match v with
  | JObj kw => Return kw
  | _ => Raise TypeError
  end.

(** A keyword that names no parameter of the callee. *)
Definition unexpected (params : list string) (kw : list (string * json)) : bool :=
  existsb (fun kv => negb (mem (fst kv) params)) kw.

(** The argument bound to a parameter that has no default. *)
Definition arg (k : string) (kw : list (string * json)) : result json :=
  match lookup k kw with
  | Some v => Return v
  | None => Raise TypeError
  end.

(** ** The Treelist record *)

Module Treelist.
Record t : Type := mk {
  id : json;
  name : json;
  description : json;
  method : json;
  dataset_id : json;
  status : json;
  created_on : datetime;
  summary : json;
  fuelgrids : json;
  version : json
}.

Definition params : list string :=
  ["id"; "name"; "description"; "method"; "dataset_id"; "status";
   "created_on"; "summary"; "fuelgrids"; "version"].
End Treelist.

(** ** The Fuelgrid record *)

Module Fuelgrid.
Record t : Type := mk {
  id : json;
  name : json;
  description : json;
  status : json;
  dataset_id : json;
  treelist_id : json;
  surface_fuel_source : json;
  surface_interpolation_method : json;
  distribution_method : json;
  horizontal_resolution : json;
  vertical_resolution : json;
  border_pad : json;
  created_on : datetime;
  version : json
}.

Definition params : list string :=
  ["id"; "name"; "description"; "status"; "dataset_id"; "treelist_id";
   "surface_fuel_source"; "surface_interpolation_method";
   "distribution_method"; "horizontal_resolution"; "vertical_resolution";
   "border_pad"; "created_on"; "version"].
End Fuelgrid.

Section Client.
Context {P : Platform}.

(** [datetime.fromisoformat(v)] on a decoded value.  The text a
    [ValueError] of the parser carries varies with the input and is not
    modelled: one fixed text stands for all of them, and no statement
    about the program depends on it. *)
Definition parse_created_on (v : json) : result datetime :=
  match v with
  | JStr s =>
      match fromisoformat s with
      | Some d => Return d
      | None => Raise (ValueError "Invalid isoformat string")
      end
  | _ => Raise TypeError
  end.

(** [Treelist.__init__]: every field is stored as passed, but for
    [created_on]. *)
Definition Treelist__init__
    (id name description method dataset_id status created_on
     summary fuelgrids version : json) : result Treelist.t :=
  created <~ parse_created_on created_on ;;
  Return (Treelist.mk id name description method dataset_id status
                      created summary fuelgrids version).

(** [Treelist] called with the keywords [kw]: they are bound to the ten
    parameters, none of which has a default, then [__init__] runs. *)
Definition Treelist_kwargs (kw : list (string * json)) : result Treelist.t :=
  if unexpected Treelist.params kw then Raise TypeError else
  id <~ arg "id" kw ;;
  name <~ arg "name" kw ;;
  description <~ arg "description" kw ;;
  method <~ arg "method" kw ;;
  dataset_id <~ arg "dataset_id" kw ;;
  status <~ arg "status" kw ;;
  created_on <~ arg "created_on" kw ;;
  summary <~ arg "summary" kw ;;
  fuelgrids <~ arg "fuelgrids" kw ;;
  version <~ arg "version" kw ;;
  Treelist__init__ id name description method dataset_id status created_on
                   summary fuelgrids version.

(** [Treelist] called with a decoded value [v] unpacked as its keywords. *)
Definition Treelist_of (v : json) : result Treelist.t :=
  kw <~ as_mapping v ;; Treelist_kwargs kw.

(** [v["treelists"]] *)
Definition subscript_treelists (v : json) : result json :=
  match v with
  | JObj kw =>
      match lookup "treelists" kw with
      | Some x => Return x
      | None => Raise (KeyError "treelists")
      end
  | _ => Raise TypeError
  end.

(** [for x in v]: the values iteration yields. *)
Definition iterate (v : json) : result (list json) :=
  match v with
  | JArr items => Return items
  | JObj kw => Return (map (fun kv => JStr (fst kv)) kw)
  | JStr s => Return (chars s)
  | _ => Raise TypeError
  end.

(** The comprehension over [v["treelists"]] that calls [Treelist] with
    each element unpacked as its keywords. *)
Definition Treelists_of (v : json) : result (list Treelist.t) :=
  x <~ subscript_treelists v ;;
  items <~ iterate x ;;
  comprehension Treelist_of items.

(** *** fastfuels_sdk/treelists.py *)

Definition create_treelist (dataset_id name description method : string)
  : M Treelist.t :=
  let payload := json_dumps (JObj [("dataset_id", JStr dataset_id);
                                   ("name", JStr name);
                                   ("description", JStr description);
                                   ("method", JStr method)]) in
  let endpoint_url := API_URL ++ "/treelists" in
  response <- send (mk_request POST endpoint_url (Some payload) []) ;;
  if negb (status_code response =? 201) then
    body <- json_of response ;; raise (HTTPError body)
  else
    body <- json_of response ;; lift (Treelist_of body).

Definition get_treelist (treelist_id units : string) : M Treelist.t :=
  if negb (mem units ["metric"; "imperial"]) then
    raise (ValueError "units must be 'metric' or 'imperial'")
  else
    let endpoint_url :=
      API_URL ++ "/treelists/" ++ treelist_id ++ "?units=" ++ units in
    response <- send (mk_request GET endpoint_url None []) ;;
    if negb (status_code response =? 200) then
      body <- json_of response ;; raise (HTTPError body)
    else
      body <- json_of response ;; lift (Treelist_of body).

(** Truth value of an optional string argument: [None] and the empty
    string are false. *)
Definition truthy (s : option string) : bool :=
  match s with
  | Some EmptyString => false
  | Some _ => true
  | None => false
  end.

(** The string of an argument known to be supplied. *)
Definition text (s : option string) : string :=
  match s with
  | Some x => x
  | None => "None"
  end.

Definition list_treelists (dataset_id : option string) : M (list Treelist.t) :=
  let endpoint_url :=
    if truthy dataset_id
    then API_URL ++ "/treelists?dataset_id=" ++ text dataset_id
    else API_URL ++ "/treelists" in
  response <- send (mk_request GET endpoint_url None []) ;;
  if negb (status_code response =? 200) then
    body <- json_of response ;; raise (HTTPError body)
  else
    body <- json_of response ;; lift (Treelists_of body).

Definition update_treelist (treelist_id : string) (name description : option string)
  : M Treelist.t :=
  match name, description with
  | None, None => raise (ValueError "name or description must be provided")
  | _, _ =>
      let payload_dict := [] in
      let payload_dict :=
        if truthy name
        then (payload_dict ++ [("name", JStr (text name))])%list
        else payload_dict in
      let payload_dict :=
        if truthy description
        then (payload_dict ++ [("description", JStr (text description))])%list
        else payload_dict in
      let payload := json_dumps (JObj payload_dict) in
      let endpoint_url := API_URL ++ "/treelists/" ++ treelist_id in
      response <- send (mk_request PATCH endpoint_url (Some payload) []) ;;
      if negb (status_code response =? 200) then
        body <- json_of response ;; raise (HTTPError body)
      else
        body <- json_of response ;; lift (Treelist_of body)
  end.

(** The temporary file lives only for the upload; what reaches the
    session is its content, the CSV text of [data].  [filename] is read
    by the guard and nowhere else. *)
Definition update_treelist_data (treelist_id : string)
    (filename : option string) (data : option DataFrame) : M Treelist.t :=
  match filename, data with
  | None, None => raise (ValueError "filename or data must be provided")
  | _, _ =>
      let endpoint_url := API_URL ++ "/treelists/" ++ treelist_id ++ "/data" in
      file <- match data with
              | Some df => ret (to_csv df)
              | None => raise AttributeError
              end ;;
      response <- send (mk_request PUT endpoint_url None [("file", file)]) ;;
      if negb (status_code response =? 200) then
        body <- json_of response ;; raise (HTTPError body)
      else
        body <- json_of response ;; lift (Treelist_of body)
  end.

(** [dataset_id] is a parameter of the function; its body does not
    mention it. *)
Definition delete_treelist (treelist_id : string) (dataset_id : option string)
  : M (list Treelist.t) :=
  let endpoint_url := API_URL ++ "/treelists/" ++ treelist_id in
  response <- send (mk_request DELETE endpoint_url None []) ;;
  if negb (status_code response =? 200) then
    body <- json_of response ;; raise (HTTPError body)
  else
    body <- json_of response ;; lift (Treelists_of body).

Definition delete_all_treelists (dataset_id : option string)
  : M (list Treelist.t) :=
  let endpoint_url :=
    if truthy dataset_id
    then API_URL ++ "/treelists?dataset_id=" ++ text dataset_id
    else API_URL ++ "/treelists" in
  response <- send (mk_request DELETE endpoint_url None []) ;;
  if negb (status_code response =? 200) then
    body <- json_of response ;; raise (HTTPError body)
  else
    body <- json_of response ;; lift (Treelists_of body).
End Client.

(** ** The six operations behind one type, for statements that range over
    all of them *)

Inductive treelist_op : Type :=
| Create (dataset_id name description method : string)
| Get (treelist_id units : string)
| List_ (dataset_id : option string)
| Update (treelist_id : string) (name description : option string)
| Delete (treelist_id : string) (dataset_id : option string)
| DeleteAll (dataset_id : option string).

Inductive resources : Type :=
| One (r : Treelist.t)
| Many (rs : list Treelist.t).

Definition fmap {A B} (f : A -> B) (m : M A) : M B := x <- m ;; ret (f x).

Definition rmap {A B} (f : A -> B) (r : result A) : result B :=
  x <~ r ;; Return (f x).

Section Operations.
Context {P : Platform}.

Definition run_op (o : treelist_op) : M resources :=
  match o with
  | Create d n ds m => fmap One (create_treelist d n ds m)
  | Get i u => fmap One (get_treelist i u)
  | List_ d => fmap Many (list_treelists d)
  | Update i n ds => fmap One (update_treelist i n ds)
  | Delete i d => fmap Many (delete_treelist i d)
  | DeleteAll d => fmap Many (delete_all_treelists d)
  end.

(** The success code the interface table documents for each operation. *)
Definition success_code (o : treelist_op) : Z :=
  match o with
  | Create _ _ _ _ => 201
  | _ => 200
  end.

(** The resource or resources a response body decodes to. *)
Definition decoded (o : treelist_op) (body : json) : result resources :=
  match o with
  | Create _ _ _ _ | Get _ _ | Update _ _ _ => rmap One (Treelist_of body)
  | List_ _ | Delete _ _ | DeleteAll _ => rmap Many (Treelists_of body)
  end.
End Operations.

(** ** The polling loop of tests/test_fuelgrid.py *)

Section Polling.
Context {P : Platform}.

(** The constructor of [Fuelgrid] lives in fastfuels_sdk/fuelgrids.py,
    which is not among the sources; the loop is stated over any. *)
Variable Fuelgrid_of : json -> result Fuelgrid.t.

(** Modelled from the spec: [get_fuelgrid] of fastfuels_sdk/fuelgrids.py
    is missing.  The spec's [get(id)] sends GET /fuelgrids/{id}, fails
    with the request error carrying the decoded body on a status other
    than 200, and returns the decoded resource otherwise. *)
Definition get_fuelgrid (fuelgrid_id : string) : M Fuelgrid.t :=
  let endpoint_url := API_URL ++ "/fuelgrids/" ++ fuelgrid_id in
  response <- send (mk_request GET endpoint_url None []) ;;
  if negb (status_code response =? 200) then
    body <- json_of response ;; raise (HTTPError body)
  else
    body <- json_of response ;; lift (Fuelgrid_of body).

(** [while fuelgrid.status != "Finished": fuelgrid = get_fuelgrid(temp_id);
    sleep(2)].  [fuel] bounds the number of iterations; [None] is a loop
    still running when the fuel is spent. *)
Fixpoint while_not_finished (fuel : nat) (temp_id : string)
    (fuelgrid : Fuelgrid.t) {struct fuel} : M (option Fuelgrid.t) :=
  if negb (eq_str (Fuelgrid.status fuelgrid) "Finished") then
    match fuel with
    | O => ret None
    | S fuel' =>
        fuelgrid <- get_fuelgrid temp_id ;;
        sleep 2 ;;;
        while_not_finished fuel' temp_id fuelgrid
    end
  else ret (Some fuelgrid).

(** [fuelgrid = get_fuelgrid(temp_id)] followed by the loop, as in
    [test_create_fuelgrid_interpolation_methods].  The other tests enter the
    loop with the record [create_fuelgrid] returned and pass its id. *)
Definition poll (fuel : nat) (temp_id : string) : M (option Fuelgrid.t) :=
  fuelgrid <- get_fuelgrid temp_id ;;
  while_not_finished fuel temp_id fuelgrid.
End Polling.

(** ** Downloading a treelist's table *)

Section TreelistData.
Context {P : Platform}.

(** The raw body of an answer is the service's other face beside
    [respond]: [content_of] gives the bytes of the answer to the last
    request of a history. *)
Variable content_of : list request -> string.

(** [pd.read_csv] on a file holding the given bytes. *)
Variable read_csv : string -> result DataFrame.

(** [response.content], read while the response is the latest one. *)
Definition content (response : response) : M string :=
  fun w => (Return (content_of (calls w)), w).

(** The temporary file holds the bytes of the body from [write] and
    [seek(0)] to the end of [read_csv], which reads it by name. *)
Definition get_treelist_data (treelist_id : string) : M DataFrame :=
  let endpoint_url :=
    API_URL ++ "/treelists/" ++ treelist_id ++ "/data?fmt=csv" in
  response <- send (mk_request GET endpoint_url None []) ;;
  if negb (status_code response =? 200) then
    body <- json_of response ;; raise (HTTPError body)
  else
    temp_file <- content response ;;
    lift (read_csv temp_file).
End TreelistData.

(** ** A concrete platform and transport stubs, for closed examples *)

Module Fixture.

Definition digit (c : ascii) : option Z :=
  let n := Z.of_nat (nat_of_ascii c) in
  if (48 <=? n) && (n <=? 57) then Some (n - 48) else None.

Fixpoint digits (s : string) (acc : Z) : option Z :=
  match s with
  | EmptyString => Some acc
  | String c rest =>
      match digit c with
      | Some d => digits rest (10 * acc + d)
      | None => None
      end
  end.

Definition field (s : string) (start len : nat) : option Z :=
  digits (substring start len s) 0.

Definition sep (s : string) (i : nat) (c : string) : bool :=
  String.eqb (substring i 1 s) c.

(** An ISO-8601 parser for the one shape [YYYY-MM-DD?HH:MM:SS], any
    character between date and time. *)
Definition iso_seconds (s : string) : option datetime :=
  if Nat.eqb (String.length s) 19
     && sep s 4 "-" && sep s 7 "-" && sep s 13 ":" && sep s 16 ":"
  then
    match field s 0 4, field s 5 2, field s 8 2,
          field s 11 2, field s 14 2, field s 17 2 with
    | Some y, Some mo, Some d, Some h, Some mi, Some se =>
        if (1 <=? mo) && (mo <=? 12) && (1 <=? d) && (d <=? 31)
           && (h <? 24) && (mi <? 60) && (se <? 60)
        then Some (mk_datetime y mo d h mi se 0 None)
        else None
    | _, _, _, _, _, _ => None
    end
  else None.

Definition decimal (n : Z) : string := NilZero.string_of_int (Z.to_int n).

Definition quote (s : string) : string := "'" ++ s ++ "'".

(** A serialiser for values whose strings need no escaping; strings are
    delimited by apostrophes here. *)
Fixpoint dumps (v : json) : string :=
  match v with
  | JNull => "null"
  | JBool true => "true"
  | JBool false => "false"
  | JInt n => decimal n
  | JFloat m e => decimal m ++ "e" ++ decimal e
  | JStr s => quote s
  | JArr items =>
      "[" ++ (fix go (l : list json) : string :=
                match l with
                | [] => ""
                | x :: rest =>
                    dumps x ++ match rest with [] => "" | _ => ", " ++ go rest end
                end) items ++ "]"
  | JObj fields =>
      "{" ++ (fix go (l : list (string * json)) : string :=
                match l with
                | [] => ""
                | (k, x) :: rest =>
                    quote k ++ ": " ++ dumps x
                    ++ match rest with [] => "" | _ => ", " ++ go rest end
                end) fields ++ "}"
  end.

Definition newline : string := String (ascii_of_nat 10) EmptyString.

(** Tables as rows of cells, the header first; one line per row. *)
Definition csv (rows : list (list string)) : string :=
  String.concat "" (map (fun row => String.concat "," row ++ newline) rows).

#[export] Instance platform : Platform := {|
  API_URL := "https://api.example";
  fromisoformat := iso_seconds;
  json_dumps := dumps;
  DataFrame := list (list string);
  to_csv := csv
|}.

(** Modelled from the spec: the constructor of [Fuelgrid]
    (fastfuels_sdk/fuelgrids.py) is missing.  The spec has a record built
    from a decoded object matching the resource's field set, the
    timestamp parsed and the other fields kept; this one binds the
    fourteen fields the tests read, as [Treelist]'s binds its ten. *)
Definition Fuelgrid_of (v : json) : result Fuelgrid.t :=
  kw <~ as_mapping v ;;
  if unexpected Fuelgrid.params kw then Raise TypeError else
  id <~ arg "id" kw ;;
  name <~ arg "name" kw ;;
  description <~ arg "description" kw ;;
  status <~ arg "status" kw ;;
  dataset_id <~ arg "dataset_id" kw ;;
  treelist_id <~ arg "treelist_id" kw ;;
  source <~ arg "surface_fuel_source" kw ;;
  interpolation <~ arg "surface_interpolation_method" kw ;;
  distribution <~ arg "distribution_method" kw ;;
  horizontal <~ arg "horizontal_resolution" kw ;;
  vertical <~ arg "vertical_resolution" kw ;;
  border_pad <~ arg "border_pad" kw ;;
  created_on <~ arg "created_on" kw ;;
  version <~ arg "version" kw ;;
  created <~ parse_created_on created_on ;;
  Return (Fuelgrid.mk id name description status dataset_id treelist_id
                      source interpolation distribution horizontal vertical
                      border_pad created version).

(** Response bodies. *)
Definition treelist_fields (id dataset_id status : string)
  : list (string * json) :=
  [("id", JStr id); ("name", JStr "trees"); ("description", JStr "demo");
   ("method", JStr "random"); ("dataset_id", JStr dataset_id);
   ("status", JStr status); ("created_on", JStr "2023-04-05T06:07:08");
   ("summary", JObj [("trees", JInt 1200)]);
   ("fuelgrids", JArr [JStr "fg1"; JStr "fg2"]);
   ("version", JStr "0.1.0")].

Definition treelist_json (id dataset_id status : string) : json :=
  JObj (treelist_fields id dataset_id status).

(** The record [treelist_json] decodes to. *)
Definition treelist_record (id dataset_id status : string) : Treelist.t :=
  Treelist.mk (JStr id) (JStr "trees") (JStr "demo") (JStr "random")
              (JStr dataset_id) (JStr status)
              (mk_datetime 2023 4 5 6 7 8 0 None)
              (JObj [("trees", JInt 1200)])
              (JArr [JStr "fg1"; JStr "fg2"]) (JStr "0.1.0").

(** An object's fields but for the one named [k]. *)
Definition without (k : string) (kw : list (string * json))
  : list (string * json) :=
  filter (fun kv => negb (String.eqb (fst kv) k)) kw.

Definition fuelgrid_json (id status : string) : json :=
  JObj [("id", JStr id); ("name", JStr "grid"); ("description", JStr "demo");
        ("status", JStr status); ("dataset_id", JStr "d1");
        ("treelist_id", JStr "t1"); ("surface_fuel_source", JStr "LF2016");
        ("surface_interpolation_method", JStr "zipper");
        ("distribution_method", JStr "uniform");
        ("horizontal_resolution", JInt 1); ("vertical_resolution", JInt 1);
        ("border_pad", JInt 0); ("created_on", JStr "2023-04-05T06:07:08");
        ("version", JStr "0.1.0")].

(** The record [fuelgrid_json] decodes to. *)
Definition fuelgrid_record (id status : string) : Fuelgrid.t :=
  Fuelgrid.mk (JStr id) (JStr "grid") (JStr "demo") (JStr status)
              (JStr "d1") (JStr "t1") (JStr "LF2016") (JStr "zipper")
              (JStr "uniform") (JInt 1) (JInt 1) (JInt 0)
              (mk_datetime 2023 4 5 6 7 8 0 None) (JStr "0.1.0").

Definition ok (body : json) : response := mk_response 200 (Some body).

(** Transport stubs: one that answers every request alike, one that plays
    a script and fails in transport once it is exhausted, and one that
    plays a script and then repeats a last response for ever. *)
Definition always (r : response) : list request -> option response :=
  fun _ => Some r.

Definition script (rs : list response) : list request -> option response :=
  fun sent => nth_error rs (Nat.pred (List.length sent)).

Definition script_then (rs : list response) (last : response)
  : list request -> option response :=
  fun sent => Some (nth (Nat.pred (List.length sent)) rs last).

Definition fresh (srv : list request -> option response) : world :=
  mk_world srv [] 0.

(** An error body, and the service that answers everything with it. *)
Definition not_found : json := JObj [("detail", JStr "Not Found")].

Definition failing (code : Z) : world :=
  fresh (always (mk_response code (Some not_found))).

(** The service that answers everything with one treelist, and the one
    that answers everything with the treelists left after a deletion:
    one of dataset [d1] and one of dataset [d2]. *)
Definition serving (code : Z) : world :=
  fresh (always (mk_response code (Some (treelist_json "t1" "d1" "Finished")))).

Definition remaining : json :=
  JObj [("treelists", JArr [treelist_json "t2" "d1" "Finished";
                            treelist_json "t3" "d2" "Finished"])].

Definition listing : world := fresh (always (ok remaining)).

(** The status sequences of the polling examples. *)
Definition statuses (sts : list string) : list response :=
  map (fun st => ok (fuelgrid_json "fg1" st)) sts.

(** The body bytes of every answer, for a service that always sends the
    same ones. *)
Definition body_bytes (bytes : string) : list request -> string :=
  fun _ => bytes.

Fixpoint split_on (sep : ascii) (s : string) (cur : string) : list string :=
  match s with
  | EmptyString => [cur]
  | String c rest =>
      if Ascii.eqb c sep then cur :: split_on sep rest ""
      else split_on sep rest (cur ++ String c EmptyString)
  end.

(** A CSV reader for cells without quotes: the lines that are not empty,
    each split at its commas; as pandas does, it refuses an empty file. *)
Definition read_rows (bytes : string) : result (list (list string)) :=
  match bytes with
  | EmptyString => Raise (ValueError "No columns to parse from file")
  | _ =>
      Return (map (fun line => split_on "," line "")
                  (filter (fun line => negb (String.eqb line ""))
                          (split_on (ascii_of_nat 10) bytes "")))
  end.

Definition trees : list (list string) :=
  [["SPCD"; "DIA_cm"]; ["122"; "30"]].

(** The service that answers with status 200 and a body that is no JSON,
    the one that never answers, and the one whose answers have an error
    status and no JSON. *)
Definition tabular : world := fresh (always (mk_response 200 None)).

Definition unreachable : world := fresh (script []).

Definition garbled : world := fresh (always (mk_response 500 None)).

(** An object's fields with the value of the one named [k] replaced. *)
Definition with_field (k : string) (v : json) (kw : list (string * json))
  : list (string * json) :=
  map (fun kv => if String.eqb (fst kv) k then (k, v) else kv) kw.

End Fixture.

(** * Properties *)

(** ** The shape every operation ends in *)

(** Send one request; raise [HTTPError] with the decoded body unless the
    status is [code]; decode the body otherwise.  The source spells this out
    in each function; the lemmas below fold each function onto it. *)
Definition exchange {A} (req : request) (code : Z) (dec : json -> result A)
  : M A :=
  response <- send req ;;
  if negb (status_code response =? code) then
    body <- json_of response ;; raise (HTTPError body)
  else
    body <- json_of response ;; lift (dec body).

(** What an exchange yields, read off the transport's answer. *)
Definition outcome {A} (answer : option response) (code : Z)
    (dec : json -> result A) : result A :=
  match answer with
  | None => Raise ConnectionError
  | Some resp =>
      match json_body resp with
      | None => Raise JSONDecodeError
      | Some body =>
          if status_code resp =? code then dec body else Raise (HTTPError body)
      end
  end.

(** Running [m] from [w] sends exactly the one request [req], which the
    service answers with [resp]. *)
Definition answered {A} (m : M A) (w : world) (req : request)
    (resp : response) : Prop :=
  calls (snd (m w)) = (calls w ++ [req])%list /\
  respond w (calls w ++ [req])%list = Some resp.

(** The fields [update_treelist] puts in its payload. *)
Definition payload_fields (name description : option string)
  : list (string * json) :=
  ((if truthy name then [("name", JStr (text name))] else [])
   ++ (if truthy description
       then [("description", JStr (text description))] else []))%list.

(** The [k]-th successive GET of [req] from [w] is answered with status
    200 and a body that [dec] decodes to [r]. *)
Definition served {R} (dec : json -> result R) (w : world) (req : request)
    (k : nat) (r : R) : Prop :=
  exists resp body,
    respond w (calls w ++ repeat req k)%list = Some resp /\
    status_code resp = 200 /\
    json_body resp = Some body /\
    dec body = Return r.

(** The calls an operation refuses before any request: [get_treelist]
    with units outside the two it knows, [update_treelist] with neither
    field. *)
Definition rejected_locally (o : treelist_op) : Prop :=
  match o with
  | Get _ units => units <> "metric" /\ units <> "imperial"
  | Update _ None None => True
  | _ => False
  end.

Lemma exchange_run {A} (req : request) (code : Z) (dec : json -> result A)
    (w : world) :
  exchange req code dec w =
  (outcome (respond w (calls w ++ [req])%list) code dec,
   mk_world (respond w) (calls w ++ [req])%list (slept w)).
Proof.
  unfold exchange, outcome, bind, send, json_of, ret, raise, lift. cbn.
  destruct (respond w (calls w ++ [req])%list) as [resp|]; [|reflexivity].
  destruct (status_code resp =? code); cbn;
    destruct (json_body resp); reflexivity.
Qed.

Lemma fmap_exchange {A B} (f : A -> B) (req : request) (code : Z)
    (dec : json -> result A) (w : world) :
  fmap f (exchange req code dec) w =
  (rmap f (outcome (respond w (calls w ++ [req])%list) code dec),
   mk_world (respond w) (calls w ++ [req])%list (slept w)).
Proof.
  unfold fmap, bind at 1. rewrite exchange_run.
  destruct (outcome _ code dec); reflexivity.
Qed.

Lemma comprehension_Forall2 {A B} (f : A -> result B) (xs : list A)
    (ys : list B) :
  Forall2 (fun x y => f x = Return y) xs ys ->
  comprehension f xs = Return ys.
Proof.
  induction 1 as [|x y xs ys Hx _ IH]; cbn; [reflexivity|].
  now rewrite Hx, IH.
Qed.

Lemma comprehension_Raise {A B} (f : A -> result B) (xs : list A) (e : exn) :
  comprehension f xs = Raise e -> exists x, In x xs /\ f x = Raise e.
Proof.
  induction xs as [|x xs IH]; cbn; [discriminate|].
  destruct (f x) as [y|e'] eqn:Hx; cbn.
  - destruct (comprehension f xs) as [ys|e'']; cbn; [discriminate|].
    intros [= ->]. destruct (IH eq_refl) as (x' & Hin & Hx').
    exists x'. auto.
  - intros [= ->]. exists x. auto.
Qed.

Lemma mem_In (k : string) (names : list string) :
  mem k names = true <-> In k names.
Proof.
  induction names as [|n names IH]; cbn; [intuition discriminate|].
  rewrite orb_true_iff, IH, String.eqb_eq. intuition congruence.
Qed.

Lemma unexpected_false (params : list string) (kw : list (string * json)) :
  unexpected params kw = false <->
  forall k v, In (k, v) kw -> In k params.
Proof.
  unfold unexpected. split.
  - intros H k v Hin. apply mem_In.
    destruct (mem k params) eqn:E; [reflexivity|].
    assert (existsb (fun kv => negb (mem (fst kv) params)) kw = true) as C.
    { apply existsb_exists. exists (k, v). cbn. now rewrite E. }
    congruence.
  - intros H.
    destruct (existsb _ kw) eqn:E; [|reflexivity].
    apply existsb_exists in E. destruct E as ([k v] & Hin & Hk). cbn in Hk.
    apply H, mem_In in Hin. now rewrite Hin in Hk.
Qed.

Lemma answered_one {A} (m : M A) (w : world) (req : request)
    (resp : response) :
  m w = (fst (m w), w) -> ~ answered m w req resp.
Proof.
  intros E [H _]. rewrite E in H. cbn in H.
  rewrite <- (app_nil_r (calls w)) in H at 1.
  apply app_inv_head in H. discriminate.
Qed.

Lemma answered_fmap_exchange {A B} (f : A -> B) (req0 : request) (code : Z)
    (dec : json -> result A) (w : world) (req : request) (resp : response)
    (body : json) :
  answered (fmap f (exchange req0 code dec)) w req resp ->
  json_body resp = Some body ->
  req = req0 /\
  fst (fmap f (exchange req0 code dec) w) =
  if status_code resp =? code then rmap f (dec body)
  else Raise (HTTPError body).
Proof.
  intros [Hcalls Hresp] Hbody. rewrite fmap_exchange in *. cbn in *.
  apply app_inv_head in Hcalls. injection Hcalls as <-.
  split; [reflexivity|].
  unfold outcome. rewrite Hresp, Hbody.
  destruct (status_code resp =? code); reflexivity.
Qed.

Lemma answered_exchange {A} (req0 : request) (code : Z)
    (dec : json -> result A) (w : world) (req : request) (resp : response)
    (body : json) :
  answered (exchange req0 code dec) w req resp ->
  json_body resp = Some body ->
  req = req0 /\
  fst (exchange req0 code dec w) =
  if status_code resp =? code then dec body else Raise (HTTPError body).
Proof.
  intros [Hcalls Hresp] Hbody. rewrite exchange_run in *. cbn in *.
  apply app_inv_head in Hcalls. injection Hcalls as <-.
  split; [reflexivity|].
  unfold outcome. now rewrite Hresp, Hbody.
Qed.

Lemma rmap_Raise {A B} (f : A -> B) (r : result A) (e : exn) :
  rmap f r = Raise e -> r = Raise e.
Proof. destruct r; cbn; congruence. Qed.

Lemma eq_str_true (v : json) (s : string) :
  eq_str v s = true <-> v = JStr s.
Proof.
  destruct v; cbn; try (split; discriminate).
  rewrite String.eqb_eq. split; congruence.
Qed.

Lemma lookup_In (k : string) (kw : list (string * json)) (v : json) :
  lookup k kw = Some v -> In (k, v) kw.
Proof.
  induction kw as [|[k' v'] kw IH]; cbn; [discriminate|].
  destruct (String.eqb_spec k k') as [->|_]; [intros [= ->]; auto|auto].
Qed.

Lemma In_lookup (k : string) (kw : list (string * json)) (v : json) :
  In (k, v) kw -> exists v', lookup k kw = Some v'.
Proof.
  induction kw as [|[k' v'] kw IH]; cbn; [contradiction|].
  destruct (String.eqb_spec k k') as [->|Hne]; [eauto|].
  intros [[= -> _]|Hin]; [contradiction|auto].
Qed.

(** Whether a keyword is unexpected depends on the object through its
    lookups only, not on the order of its fields. *)
Lemma unexpected_ext (params : list string) (kw kw' : list (string * json)) :
  (forall k, lookup k kw = lookup k kw') ->
  unexpected params kw = unexpected params kw'.
Proof.
  intros H.
  assert (forall a b : list (string * json),
            (forall k, lookup k a = lookup k b) ->
            unexpected params a = false -> unexpected params b = false) as Hab.
  { intros a b Hl Ha. rewrite unexpected_false in *. intros k v Hin.
    destruct (In_lookup _ _ _ Hin) as [v' Hv']. rewrite <- Hl in Hv'.
    apply lookup_In in Hv'. eauto. }
  destruct (unexpected params kw) eqn:E, (unexpected params kw') eqn:E';
    try reflexivity.
  - apply (Hab kw' kw) in E'; [congruence|auto].
  - apply (Hab kw kw') in E; [congruence|auto].
Qed.

Section Facts.
Context {P : Platform}.

Lemma create_treelist_exchange (dataset_id name description method : string) :
  create_treelist dataset_id name description method =
  exchange (mk_request POST (API_URL ++ "/treelists")
              (Some (json_dumps (JObj [("dataset_id", JStr dataset_id);
                                       ("name", JStr name);
                                       ("description", JStr description);
                                       ("method", JStr method)]))) [])
           201 Treelist_of.
Proof. reflexivity. Qed.

Lemma list_treelists_exchange (dataset_id : option string) :
  list_treelists dataset_id =
  exchange (mk_request GET
              (if truthy dataset_id
               then API_URL ++ "/treelists?dataset_id=" ++ text dataset_id
               else API_URL ++ "/treelists") None [])
           200 Treelists_of.
Proof. reflexivity. Qed.

Lemma delete_treelist_exchange (treelist_id : string)
    (dataset_id : option string) :
  delete_treelist treelist_id dataset_id =
  exchange (mk_request DELETE (API_URL ++ "/treelists/" ++ treelist_id) None [])
           200 Treelists_of.
Proof. reflexivity. Qed.

Lemma delete_all_treelists_exchange (dataset_id : option string) :
  delete_all_treelists dataset_id =
  exchange (mk_request DELETE
              (if truthy dataset_id
               then API_URL ++ "/treelists?dataset_id=" ++ text dataset_id
               else API_URL ++ "/treelists") None [])
           200 Treelists_of.
Proof. reflexivity. Qed.

Lemma get_treelist_exchange (treelist_id units : string) :
  mem units ["metric"; "imperial"] = true ->
  get_treelist treelist_id units =
  exchange (mk_request GET
              (API_URL ++ "/treelists/" ++ treelist_id ++ "?units=" ++ units)
              None [])
           200 Treelist_of.
Proof. intros H. unfold get_treelist. now rewrite H. Qed.

Lemma update_treelist_exchange (treelist_id : string)
    (name description : option string) :
  name <> None \/ description <> None ->
  update_treelist treelist_id name description =
  exchange (mk_request PATCH (API_URL ++ "/treelists/" ++ treelist_id)
              (Some (json_dumps (JObj (payload_fields name description)))) [])
           200 Treelist_of.
Proof.
  intros H. unfold update_treelist, payload_fields.
  destruct name as [[|c n]|], description as [[|c' d]|];
    try (destruct H; congruence); reflexivity.
Qed.

Lemma update_treelist_data_exchange (treelist_id : string)
    (filename : option string) (df : DataFrame) :
  update_treelist_data treelist_id filename (Some df) =
  exchange (mk_request PUT (API_URL ++ "/treelists/" ++ treelist_id ++ "/data")
              None [("file", to_csv df)])
           200 Treelist_of.
Proof. destruct filename; reflexivity. Qed.

(** *** The constructor *)

Ltac bind_args kw :=
  repeat match goal with
    | |- context [lookup ?k kw] =>
        let E := fresh "E" in
        destruct (lookup k kw) eqn:E; cbn; try discriminate
    end.

Lemma Treelist_kwargs_Return (kw : list (string * json)) (t : Treelist.t) :
  Treelist_kwargs kw = Return t <->
  unexpected Treelist.params kw = false /\
  lookup "id" kw = Some (Treelist.id t) /\
  lookup "name" kw = Some (Treelist.name t) /\
  lookup "description" kw = Some (Treelist.description t) /\
  lookup "method" kw = Some (Treelist.method t) /\
  lookup "dataset_id" kw = Some (Treelist.dataset_id t) /\
  lookup "status" kw = Some (Treelist.status t) /\
  lookup "summary" kw = Some (Treelist.summary t) /\
  lookup "fuelgrids" kw = Some (Treelist.fuelgrids t) /\
  lookup "version" kw = Some (Treelist.version t) /\
  exists s, lookup "created_on" kw = Some (JStr s) /\
            fromisoformat s = Some (Treelist.created_on t).
Proof.
  unfold Treelist_kwargs, arg, Treelist__init__, parse_created_on, rbind.
  split.
  - destruct (unexpected Treelist.params kw); [discriminate|].
    bind_args kw.
    match goal with
    | |- context [match ?c with JNull => _ | _ => _ end] =>
        destruct c; try discriminate
    end.
    destruct (fromisoformat s) eqn:Hs; [|discriminate].
    intros [= <-]. cbn. repeat split. exists s. auto.
  - intros (-> & H1 & H2 & H3 & H4 & H5 & H6 & H7 & H8 & H9 & s & Hc & Hs).
    rewrite H1, H2, H3, H4, H5, H6, H7, H8, H9, Hc, Hs.
    destruct t; reflexivity.
Qed.

Lemma Treelist_kwargs_Raise (kw : list (string * json)) (e : exn) :
  Treelist_kwargs kw = Raise e ->
  e = TypeError \/ e = ValueError "Invalid isoformat string".
Proof.
  unfold Treelist_kwargs, arg, Treelist__init__, parse_created_on, rbind.
  destruct (unexpected Treelist.params kw); [intros [= <-]; auto|].
  bind_args kw; try (intros [= <-]; auto).
  match goal with
  | |- context [match ?c with JNull => _ | _ => _ end] =>
      destruct c; try (intros [= <-]; auto)
  end.
  destruct (fromisoformat s); [discriminate|]. intros [= <-]; auto.
Qed.

Lemma Treelist_of_Raise (v : json) (e : exn) :
  Treelist_of v = Raise e ->
  e = TypeError \/ e = ValueError "Invalid isoformat string".
Proof.
  destruct v; cbn; try (intros [= <-]; auto).
  apply Treelist_kwargs_Raise.
Qed.

Lemma Treelists_of_Raise (v : json) (e : exn) :
  Treelists_of v = Raise e ->
  e = TypeError \/ e = KeyError "treelists" \/
  e = ValueError "Invalid isoformat string".
Proof.
  unfold Treelists_of, subscript_treelists, iterate, rbind.
  destruct v; try (intros [= <-]; auto).
  destruct (lookup "treelists" fields) as [x|]; [|intros [= <-]; auto].
  assert (forall items, comprehension Treelist_of items = Raise e ->
            e = TypeError \/ e = KeyError "treelists" \/
            e = ValueError "Invalid isoformat string") as Hc.
  { intros items H. apply comprehension_Raise in H.
    destruct H as (y & _ & Hy). apply Treelist_of_Raise in Hy. tauto. }
  destruct x; try (intros [= <-]; auto); apply Hc.
Qed.

(** C3, as the code has it.  Construction from a decoded object succeeds
    exactly when every field of the object is one of the ten parameters,
    each of the ten is present, and [created_on] is a string the ISO-8601
    parser accepts; the record then holds the parsed time and every other
    field as it came, the identifier list in its order.  A field that is
    no parameter, or a parameter that is missing, makes construction
    raise [TypeError]. *)
Theorem Treelist_construction (kw : list (string * json)) :
  (forall t,
     Treelist_of (JObj kw) = Return t <->
     (forall k v, In (k, v) kw -> In k Treelist.params) /\
     lookup "id" kw = Some (Treelist.id t) /\
     lookup "name" kw = Some (Treelist.name t) /\
     lookup "description" kw = Some (Treelist.description t) /\
     lookup "method" kw = Some (Treelist.method t) /\
     lookup "dataset_id" kw = Some (Treelist.dataset_id t) /\
     lookup "status" kw = Some (Treelist.status t) /\
     lookup "summary" kw = Some (Treelist.summary t) /\
     lookup "fuelgrids" kw = Some (Treelist.fuelgrids t) /\
     lookup "version" kw = Some (Treelist.version t) /\
     exists s, lookup "created_on" kw = Some (JStr s) /\
               fromisoformat s = Some (Treelist.created_on t)) /\
  ((exists k v, In (k, v) kw /\ ~ In k Treelist.params) ->
   Treelist_of (JObj kw) = Raise TypeError) /\
  ((exists k, In k Treelist.params /\ lookup k kw = None) ->
   Treelist_of (JObj kw) = Raise TypeError).
Proof.
  change (Treelist_of (JObj kw)) with (Treelist_kwargs kw).
  split; [|split].
  - intros t. rewrite Treelist_kwargs_Return, unexpected_false. reflexivity.
  - intros (k & v & Hin & Hk). unfold Treelist_kwargs.
    destruct (unexpected Treelist.params kw) eqn:E; [reflexivity|].
    rewrite unexpected_false in E. elim Hk. eauto.
  - intros (k & Hk & Hnone). unfold Treelist_kwargs.
    destruct (unexpected Treelist.params kw); [reflexivity|].
    unfold arg, rbind. cbn in Hk.
    repeat (destruct Hk as [<-|Hk];
            [rewrite ?Hnone; bind_args kw; reflexivity|]).
    contradiction.
Qed.

(** Two objects with the same lookups, that is the same dict whatever the
    order of its fields, construct alike. *)
Lemma Treelist_kwargs_ext (kw kw' : list (string * json)) :
  (forall k, lookup k kw = lookup k kw') ->
  Treelist_kwargs kw = Treelist_kwargs kw'.
Proof.
  intros H. unfold Treelist_kwargs, arg.
  now rewrite (unexpected_ext Treelist.params kw kw' H), !H.
Qed.

(** *** Local guards *)

Lemma mem_units (units : string) :
  mem units ["metric"; "imperial"] = true <->
  units = "metric" \/ units = "imperial".
Proof. rewrite mem_In. cbn. intuition. Qed.

(** C6.  A [units] value other than "metric" and "imperial" makes
    [get_treelist] raise the local [ValueError] with the world untouched,
    so no request is sent; with either of the two values the call sends
    exactly one request, a GET whose URL carries that [units] query
    parameter. *)
Theorem get_treelist_units_guard (treelist_id units : string) (w : world) :
  (units <> "metric" /\ units <> "imperial" ->
   get_treelist treelist_id units w =
   (Raise (ValueError "units must be 'metric' or 'imperial'"), w)) /\
  (units = "metric" \/ units = "imperial" ->
   calls (snd (get_treelist treelist_id units w)) =
   (calls w ++ [mk_request GET
                  (API_URL ++ "/treelists/" ++ treelist_id
                           ++ "?units=" ++ units) None []])%list).
Proof.
  split.
  - intros [Hm Hi]. unfold get_treelist.
    destruct (mem units ["metric"; "imperial"]) eqn:E; [|reflexivity].
    apply mem_units in E. tauto.
  - intros H. apply mem_units in H.
    now rewrite (get_treelist_exchange treelist_id units H), exchange_run.
Qed.

(** The guard of [update_treelist] and its request.  With neither [name]
    nor [description] supplied it raises the local [ValueError] with the
    world untouched, so no request is sent; with at least one supplied it
    sends exactly one PATCH request to the treelist's URL, and a response
    whose status is not 200 and whose body is JSON makes it raise
    [HTTPError] with the decoded body. *)
Theorem update_treelist_guard (treelist_id : string)
    (name description : option string) (w : world) :
  (name = None /\ description = None ->
   update_treelist treelist_id name description w =
   (Raise (ValueError "name or description must be provided"), w)) /\
  (name <> None \/ description <> None ->
   let req := mk_request PATCH (API_URL ++ "/treelists/" ++ treelist_id)
                (Some (json_dumps (JObj (payload_fields name description))))
                [] in
   calls (snd (update_treelist treelist_id name description w)) =
   (calls w ++ [req])%list /\
   forall resp body,
     respond w (calls w ++ [req])%list = Some resp ->
     status_code resp <> 200 ->
     json_body resp = Some body ->
     fst (update_treelist treelist_id name description w) =
     Raise (HTTPError body)).
Proof.
  split.
  - intros [-> ->]. reflexivity.
  - intros H req.
    rewrite (update_treelist_exchange treelist_id H), exchange_run.
    fold req. split; [reflexivity|].
    intros resp body Hresp Hcode Hbody. cbn. unfold outcome.
    rewrite Hresp, Hbody.
    destruct (Z.eqb_spec (status_code resp) 200); [contradiction|reflexivity].
Qed.

(** C10.  The guard of [update_treelist] looks for [None] only: with both
    fields supplied as empty strings the local [ValueError] is not raised,
    and exactly one PATCH request is sent, whose payload is the dump of
    the empty object: neither field enters it, an empty value being
    false. *)
Theorem update_treelist_empty_strings (treelist_id : string) (w : world) :
  fst (update_treelist treelist_id (Some "") (Some "") w) <>
  Raise (ValueError "name or description must be provided") /\
  calls (snd (update_treelist treelist_id (Some "") (Some "") w)) =
  (calls w ++ [mk_request PATCH (API_URL ++ "/treelists/" ++ treelist_id)
                 (Some (json_dumps (JObj []))) []])%list.
Proof.
  rewrite update_treelist_exchange by (left; discriminate).
  rewrite exchange_run. cbn. split; [|reflexivity].
  unfold outcome.
  destruct (respond w _) as [resp|]; [|discriminate].
  destruct (json_body resp) as [body|]; [|discriminate].
  destruct (status_code resp =? 200); [|discriminate].
  intros H. apply Treelist_of_Raise in H. destruct H; discriminate.
Qed.

(** C1.  A call of [update_treelist_data] that supplies a file path and no
    table passes the guard and then fails at [data.to_csv]: it raises
    [AttributeError] with the world untouched, so nothing is uploaded. *)
Theorem update_treelist_data_filename_only (treelist_id filename : string)
    (w : world) :
  update_treelist_data treelist_id (Some filename) None w =
  (Raise AttributeError, w).
Proof. reflexivity. Qed.

(** *** Status codes *)

Lemma decoded_not_HTTPError (o : treelist_op) (body e : json) :
  decoded o body <> Raise (HTTPError e).
Proof.
  intros H.
  destruct o; cbn in H; apply rmap_Raise in H;
    (apply Treelist_of_Raise in H || apply Treelists_of_Raise in H);
    intuition discriminate.
Qed.

Lemma run_op_contract (o : treelist_op) (w : world) (req : request)
    (resp : response) (body : json) :
  answered (run_op o) w req resp ->
  json_body resp = Some body ->
  fst (run_op o w) =
  if status_code resp =? success_code o then decoded o body
  else Raise (HTTPError body).
Proof.
  intros Hans Hbody. destruct o as [d n ds m|i u|d|i n ds|i d|d]; cbn in *.
  - rewrite create_treelist_exchange in *.
    exact (proj2 (answered_fmap_exchange Hans Hbody)).
  - destruct (mem u ["metric"; "imperial"]) eqn:E.
    + rewrite (get_treelist_exchange i u E) in *.
      exact (proj2 (answered_fmap_exchange Hans Hbody)).
    + exfalso. revert Hans. apply answered_one.
      unfold fmap, bind, get_treelist. now rewrite E.
  - rewrite list_treelists_exchange in *.
    exact (proj2 (answered_fmap_exchange Hans Hbody)).
  - destruct n as [n|]; [|destruct ds as [ds|]].
    + rewrite (@update_treelist_exchange i (Some n) ds) in *
        by (left; discriminate).
      exact (proj2 (answered_fmap_exchange Hans Hbody)).
    + rewrite (@update_treelist_exchange i None (Some ds)) in *
        by (right; discriminate).
      exact (proj2 (answered_fmap_exchange Hans Hbody)).
    + exfalso. revert Hans. now apply answered_one.
  - rewrite delete_treelist_exchange in *.
    exact (proj2 (answered_fmap_exchange Hans Hbody)).
  - rewrite delete_all_treelists_exchange in *.
    exact (proj2 (answered_fmap_exchange Hans Hbody)).
Qed.

Lemma run_op_at_most_one_request (o : treelist_op) (w : world) :
  calls (snd (run_op o w)) = calls w \/
  exists req, calls (snd (run_op o w)) = (calls w ++ [req])%list.
Proof.
  destruct o as [d n ds m|i u|d|i n ds|i d|d]; cbn.
  - right. rewrite create_treelist_exchange, fmap_exchange. cbn. eauto.
  - destruct (mem u ["metric"; "imperial"]) eqn:E.
    + right. rewrite (get_treelist_exchange i u E), fmap_exchange. cbn. eauto.
    + left. unfold fmap, bind, get_treelist. now rewrite E.
  - right. rewrite list_treelists_exchange, fmap_exchange. cbn. eauto.
  - destruct n as [n|]; [|destruct ds as [ds|]].
    + right. rewrite (@update_treelist_exchange i (Some n) ds)
        by (left; discriminate).
      rewrite fmap_exchange. cbn. eauto.
    + right. rewrite (@update_treelist_exchange i None (Some ds))
        by (right; discriminate).
      rewrite fmap_exchange. cbn. eauto.
    + now left.
  - right. rewrite delete_treelist_exchange, fmap_exchange. cbn. eauto.
  - right. rewrite delete_all_treelists_exchange, fmap_exchange. cbn. eauto.
Qed.

(** *** Deleting *)

Lemma delete_treelist_ignores_filter (treelist_id : string)
    (dataset_id : option string) (w : world) :
  delete_treelist treelist_id dataset_id w =
  delete_treelist treelist_id None w /\
  calls (snd (delete_treelist treelist_id dataset_id w)) =
  (calls w ++ [mk_request DELETE (API_URL ++ "/treelists/" ++ treelist_id)
                 None []])%list.
Proof.
  split; [reflexivity|].
  now rewrite delete_treelist_exchange, exchange_run.
Qed.
End Facts.

(** ** The polling loop *)

Section PollingFacts.
Context {P : Platform}.
Variable Fuelgrid_of : json -> result Fuelgrid.t.
Variable temp_id : string.

Let req : request :=
  mk_request GET (API_URL ++ "/fuelgrids/" ++ temp_id) None [].

Lemma get_fuelgrid_exchange :
  get_fuelgrid Fuelgrid_of temp_id = exchange req 200 Fuelgrid_of.
Proof. reflexivity. Qed.

Lemma get_fuelgrid_served (w : world) (r : Fuelgrid.t) :
  served Fuelgrid_of w req 1 r ->
  get_fuelgrid Fuelgrid_of temp_id w =
  (Return r, mk_world (respond w) (calls w ++ [req])%list (slept w)).
Proof.
  intros (resp & body & Hresp & Hcode & Hbody & Hdec). cbn in Hresp.
  rewrite get_fuelgrid_exchange, exchange_run. unfold outcome.
  now rewrite Hresp, Hbody, Hcode, Hdec.
Qed.

Lemma served_shift (w : world) (z : Z) (k : nat) (r : Fuelgrid.t) :
  served Fuelgrid_of w req (S k) r ->
  served Fuelgrid_of (mk_world (respond w) (calls w ++ [req])%list z) req k r.
Proof.
  intros (resp & body & Hresp & H). exists resp, body.
  split; [|exact H]. cbn in *. now rewrite <- app_assoc.
Qed.

(** The loop proper, entered with the record [current] in hand while the
    records of [next] are still to be fetched. *)
Lemma while_not_finished_returns (finished : Fuelgrid.t) :
  Fuelgrid.status finished = JStr "Finished" ->
  forall (pending : list Fuelgrid.t) (current : Fuelgrid.t)
         (next : list Fuelgrid.t) (w : world) (fuel : nat),
    (current :: next = pending ++ [finished])%list ->
    Forall (fun r => Fuelgrid.status r <> JStr "Finished") pending ->
    (forall k r, nth_error next k = Some r ->
                 served Fuelgrid_of w req (S k) r) ->
    (length next <= fuel)%nat ->
    while_not_finished Fuelgrid_of fuel temp_id current w =
    (Return (Some finished),
     mk_world (respond w) (calls w ++ repeat req (length next))%list
              (slept w + 2 * Z.of_nat (length next))).
Proof.
  intros Hfin. induction pending as [|p pending IH];
    intros current next w fuel Hseq Hpend Hserved Hfuel.
  - injection Hseq as -> ->.
    destruct fuel; cbn; rewrite Hfin; cbn;
      rewrite app_nil_r, Z.add_0_r; now destruct w.
  - injection Hseq as -> ->.
    apply Forall_cons_iff in Hpend. destruct Hpend as [Hp Hpend].
    assert (eq_str (Fuelgrid.status p) "Finished" = false) as Ep.
    { destruct (eq_str (Fuelgrid.status p) "Finished") eqn:E; [|reflexivity].
      now apply eq_str_true in E. }
    destruct (pending ++ [finished])%list as [|c rest] eqn:Enext;
      [now destruct pending|].
    destruct fuel as [|fuel]; [cbn in Hfuel; lia|].
    cbn [while_not_finished]. rewrite Ep. cbn [negb].
    unfold bind at 1.
    rewrite (get_fuelgrid_served (Hserved 0%nat c eq_refl)).
    unfold bind at 1, sleep at 1. cbn [respond calls slept].
    rewrite (IH c rest _ fuel eq_refl Hpend).
    + cbn [respond calls slept length repeat].
      rewrite <- app_assoc. cbn [app]. do 2 f_equal. lia.
    + intros k r Hk. apply served_shift. apply Hserved. exact Hk.
    + cbn in Hfuel. lia.
Qed.

Lemma poll_first_finished (pending : list Fuelgrid.t)
    (finished : Fuelgrid.t) (w : world) (fuel : nat) :
  Forall (fun r => Fuelgrid.status r <> JStr "Finished") pending ->
  Fuelgrid.status finished = JStr "Finished" ->
  (forall k r, nth_error (pending ++ [finished]) k = Some r ->
               served Fuelgrid_of w req (S k) r) ->
  (length pending <= fuel)%nat ->
  poll Fuelgrid_of fuel temp_id w =
  (Return (Some finished),
   mk_world (respond w)
            (calls w ++ repeat req (S (length pending)))%list
            (slept w + 2 * Z.of_nat (length pending))).
Proof.
  intros Hpend Hfin Hserved Hfuel.
  destruct (pending ++ [finished])%list as [|c next] eqn:Eseq;
    [now destruct pending|].
  assert (length next = length pending) as Hlen.
  { apply (f_equal (@length _)) in Eseq.
    rewrite length_app in Eseq. cbn in Eseq. lia. }
  unfold poll, bind.
  rewrite (get_fuelgrid_served (Hserved 0%nat c eq_refl)).
  rewrite (@while_not_finished_returns finished Hfin pending c next).
  - cbn [respond calls slept]. rewrite Hlen, <- app_assoc. reflexivity.
  - now symmetry.
  - exact Hpend.
  - intros k r Hk. apply served_shift. apply (Hserved (S k)). exact Hk.
  - lia.
Qed.

(** Whatever the service answers, a record the loop returns has status
    "Finished". *)
Lemma while_not_finished_only_finished (fuel : nat) :
  forall (current : Fuelgrid.t) (w : world) (r : Fuelgrid.t) (w' : world),
    while_not_finished Fuelgrid_of fuel temp_id current w =
    (Return (Some r), w') ->
    Fuelgrid.status r = JStr "Finished".
Proof.
  induction fuel as [|fuel IH]; intros current w r w';
    cbn [while_not_finished];
    destruct (eq_str (Fuelgrid.status current) "Finished") eqn:E;
    cbn [negb].
  - intros [= <- _]. now apply eq_str_true.
  - discriminate.
  - intros [= <- _]. now apply eq_str_true.
  - unfold bind at 1.
    destruct (get_fuelgrid Fuelgrid_of temp_id w) as [[fg|e] w1];
      [|discriminate].
    unfold bind at 1, sleep at 1. apply IH.
Qed.

(** C4, as the code has it.  The loop ends upon reading the first
    "Finished" status: when the successive GETs are answered with records
    whose statuses differ from "Finished" and then with one whose status
    is "Finished", polling with fuel for one iteration per unfinished
    record returns that record, having issued exactly one GET per record
    read and slept two time units per iteration.  "Finished" is the only
    status that ends it: no record with another status is ever
    returned. *)
Theorem poll_returns_first_finished (w : world) (fuel : nat) :
  (forall r w',
     poll Fuelgrid_of fuel temp_id w = (Return (Some r), w') ->
     Fuelgrid.status r = JStr "Finished") /\
  (forall pending finished,
     Forall (fun r => Fuelgrid.status r <> JStr "Finished") pending ->
     Fuelgrid.status finished = JStr "Finished" ->
     (forall k r, nth_error (pending ++ [finished]) k = Some r ->
                  served Fuelgrid_of w req (S k) r) ->
     (length pending <= fuel)%nat ->
     poll Fuelgrid_of fuel temp_id w =
     (Return (Some finished),
      mk_world (respond w)
               (calls w ++ repeat req (S (length pending)))%list
               (slept w + 2 * Z.of_nat (length pending)))).
Proof.
  split.
  - intros r w'. unfold poll, bind.
    destruct (get_fuelgrid Fuelgrid_of temp_id w) as [[fg|e] w1];
      [|discriminate].
    apply while_not_finished_only_finished.
  - intros pending finished. apply poll_first_finished.
Qed.
End PollingFacts.

(** ** The filename-only upload, and the upload that works *)

(** With a table supplied, [update_treelist_data] uploads its CSV text as
    the multipart part named [file], whatever [filename] is. *)
Lemma update_treelist_data_uploads {P : Platform} (treelist_id : string)
    (filename : option string) (df : DataFrame) (w : world) :
  calls (snd (update_treelist_data treelist_id filename (Some df) w)) =
  (calls w ++ [mk_request PUT (API_URL ++ "/treelists/" ++ treelist_id ++ "/data")
                 None [("file", to_csv df)]])%list.
Proof. now rewrite update_treelist_data_exchange, exchange_run. Qed.

(** ** Closed instances *)

Import Fixture.

(** C2 at a concrete call.  Deleting treelist [t1] with the filter [d1],
    against a service that answers with the two treelists left, returns both
    of them, the one of dataset [d2] included; the request carries no
    filter, and run and result are those of the call without a filter. *)
Theorem delete_treelist_filter_has_no_effect :
  fst (delete_treelist "t1" (Some "d1") listing) =
  Return [treelist_record "t2" "d1" "Finished";
          treelist_record "t3" "d2" "Finished"] /\
  calls (snd (delete_treelist "t1" (Some "d1") listing)) =
  [mk_request DELETE "https://api.example/treelists/t1" None []] /\
  delete_treelist "t1" (Some "d1") listing = delete_treelist "t1" None listing.
Proof. repeat split. Qed.

(** C3 refuted as stated: the object of a well-formed treelist decodes, the
    same object with one unknown field more does not, and neither does it
    with the [summary] field missing. *)
Lemma Treelist_extra_or_missing_field_fails :
  Treelist_of (treelist_json "t1" "d1" "Finished") =
  Return (treelist_record "t1" "d1" "Finished") /\
  Treelist_of (JObj (treelist_fields "t1" "d1" "Finished"
                     ++ [("owner", JStr "me")])%list) = Raise TypeError /\
  Treelist_of (JObj (without "summary" (treelist_fields "t1" "d1" "Finished")))
  = Raise TypeError.
Proof. repeat split. Qed.

Lemma Treelist_construction_witness :
  Treelist_of (treelist_json "t1" "d1" "Finished") =
  Return (treelist_record "t1" "d1" "Finished") /\
  Treelist_of (JObj (treelist_fields "t1" "d1" "Finished"
                     ++ [("owner", JStr "me")])%list) = Raise TypeError /\
  Treelist_of (JObj (without "summary" (treelist_fields "t1" "d1" "Finished")))
  = Raise TypeError.
Proof.
  split; [|split].
  - apply (proj1 (Treelist_construction (treelist_fields "t1" "d1" "Finished"))).
    split.
    + intros k v Hin. cbn in Hin.
      repeat (destruct Hin as [[= <- <-]|Hin]; [cbn; tauto|]).
      contradiction.
    + repeat (split; [reflexivity|]).
      exists "2023-04-05T06:07:08". split; reflexivity.
  - apply (proj1 (proj2 (Treelist_construction _))).
    exists "owner", (JStr "me"). split.
    + apply in_or_app. right. left. reflexivity.
    + cbn. intuition discriminate.
  - apply (proj2 (proj2 (Treelist_construction _))).
    exists "summary". split; [cbn; tauto|reflexivity].
Defined.

Lemma get_treelist_units_guard_witness :
  get_treelist "t1" "bogus" (serving 200) =
  (Raise (ValueError "units must be 'metric' or 'imperial'"), serving 200) /\
  calls (snd (get_treelist "t1" "imperial" (serving 200))) =
  [mk_request GET "https://api.example/treelists/t1?units=imperial" None []].
Proof.
  split.
  - apply (proj1 (get_treelist_units_guard "t1" "bogus" (serving 200))).
    split; discriminate.
  - exact (proj2 (get_treelist_units_guard "t1" "imperial" (serving 200))
                 (or_intror eq_refl)).
Defined.

Lemma update_treelist_guard_witness :
  update_treelist "t1" None None (failing 404) =
  (Raise (ValueError "name or description must be provided"), failing 404) /\
  calls (snd (update_treelist "t1" (Some "oaks") None (failing 404))) =
  [mk_request PATCH "https://api.example/treelists/t1"
     (Some "{'name': 'oaks'}") []] /\
  fst (update_treelist "t1" (Some "oaks") None (failing 404)) =
  Raise (HTTPError not_found).
Proof.
  split; [|split].
  - apply (proj1 (update_treelist_guard "t1" None None (failing 404))).
    split; reflexivity.
  - assert (Some "oaks" <> None \/ @None string <> None) as H
      by (left; discriminate).
    exact (proj1 (proj2 (update_treelist_guard "t1" (Some "oaks") None
                           (failing 404)) H)).
  - assert (Some "oaks" <> None \/ @None string <> None) as H
      by (left; discriminate).
    assert (status_code (mk_response 404 (Some not_found)) <> 200) as Hcode
      by discriminate.
    exact (proj2 (proj2 (update_treelist_guard "t1" (Some "oaks") None
                           (failing 404)) H)
             (mk_response 404 (Some not_found)) not_found
             eq_refl Hcode eq_refl).
Defined.

(** C4 refuted as stated: against the status sequence Pending, Error the
    loop does not end with the second GET, whatever the fuel: reading
    Error, it sleeps and sends a third request. *)
Lemma poll_pending_error_goes_on :
  ~ (exists fuel r w',
       poll Fuelgrid_of fuel "fg1" (fresh (script (statuses ["Pending"; "Error"])))
       = (Return (Some r), w') /\
       length (calls w') = 2%nat).
Proof.
  intros (fuel & r & w' & H & _).
  destruct fuel as [|[|fuel]]; vm_compute in H; discriminate.
Qed.

(** Against a service that stays at Error, the loop is still running when
    the fuel is spent, however much there was. *)
Lemma while_error_for_ever (fuel : nat) :
  forall w : world,
    respond w = script_then (statuses ["Pending"])
                            (ok (fuelgrid_json "fg1" "Error")) ->
    (1 <= length (calls w))%nat ->
    fst (while_not_finished Fuelgrid_of fuel "fg1"
           (fuelgrid_record "fg1" "Error") w) = Return None.
Proof.
  induction fuel as [|fuel IH]; intros w Hsrv Hlen; [reflexivity|].
  cbn [while_not_finished]. cbn [eq_str Fuelgrid.status fuelgrid_record].
  change (negb ("Error" =? "Finished")%string) with true. cbv iota.
  unfold bind at 1. rewrite get_fuelgrid_exchange, exchange_run.
  rewrite Hsrv. unfold script_then at 1.
  rewrite length_app. cbn [length].
  replace (Nat.pred (length (calls w) + 1)) with (S (Nat.pred (length (calls w))))
    by lia.
  cbn [statuses map nth].
  destruct (Nat.pred (length (calls w)));
    change (outcome (Some (ok (fuelgrid_json "fg1" "Error"))) 200 Fuelgrid_of)
      with (Return (fuelgrid_record "fg1" "Error"));
    unfold bind at 1, sleep at 1; cbn [respond calls slept];
    (apply IH; [reflexivity|cbn; rewrite length_app; cbn; lia]).
Qed.

Lemma poll_error_for_ever (fuel : nat) :
  fst (poll Fuelgrid_of fuel "fg1"
         (fresh (script_then (statuses ["Pending"])
                             (ok (fuelgrid_json "fg1" "Error")))))
  = Return None.
Proof.
  destruct fuel as [|fuel]; [reflexivity|].
  unfold poll, bind. rewrite get_fuelgrid_exchange, exchange_run.
  change (outcome _ 200 Fuelgrid_of)
    with (Return (fuelgrid_record "fg1" "Pending")).
  cbn [while_not_finished]. cbn [eq_str Fuelgrid.status fuelgrid_record].
  change (negb ("Pending" =? "Finished")%string) with true. cbv iota.
  unfold bind at 1. rewrite get_fuelgrid_exchange, exchange_run.
  change (outcome _ 200 Fuelgrid_of)
    with (Return (fuelgrid_record "fg1" "Error")).
  unfold bind at 1, sleep at 1.
  apply while_error_for_ever; cbn; [reflexivity|lia].
Qed.

Lemma poll_returns_first_finished_witness :
  fst (poll Fuelgrid_of 2 "fg1"
         (fresh (script (statuses ["Pending"; "Pending"; "Finished"]))))
  = Return (Some (fuelgrid_record "fg1" "Finished")) /\
  calls (snd (poll Fuelgrid_of 2 "fg1"
                (fresh (script (statuses ["Pending"; "Pending"; "Finished"])))))
  = repeat (mk_request GET "https://api.example/fuelgrids/fg1" None []) 3 /\
  slept (snd (poll Fuelgrid_of 2 "fg1"
                (fresh (script (statuses ["Pending"; "Pending"; "Finished"])))))
  = 4.
Proof.
  pose proof (proj2 (poll_returns_first_finished Fuelgrid_of "fg1"
                       (fresh (script (statuses ["Pending"; "Pending"; "Finished"])))
                       2)
                [fuelgrid_record "fg1" "Pending"; fuelgrid_record "fg1" "Pending"]
                (fuelgrid_record "fg1" "Finished")) as H.
  rewrite H.
  - repeat split.
  - repeat constructor; discriminate.
  - reflexivity.
  - intros [|[|[|k]]] r Hk; cbn in Hk;
      [| | |destruct k; discriminate];
      injection Hk as <-;
      (eexists; eexists; repeat split).
  - cbn. lia.
Defined.


(** * Further properties of the client *)

Lemma append_cancel (a x y : string) : a ++ x = a ++ y -> x = y.
Proof.
  induction a as [|c a IH]; cbn; [auto|]. intros [= H]. auto.
Qed.

Lemma snoc_neq {A} (l : list A) (x : A) : (l ++ [x])%list <> l.
Proof.
  intros H. rewrite <- (app_nil_r l) in H at 2.
  apply app_inv_head in H. discriminate.
Qed.

Lemma rmap_outcome {A B} (f : A -> B) (answer : option response) (code : Z)
    (dec : json -> result A) :
  rmap f (outcome answer code dec) =
  outcome answer code (fun body => rmap f (dec body)).
Proof.
  unfold outcome. destruct answer as [resp|]; [|reflexivity].
  destruct (json_body resp); [|reflexivity].
  destruct (status_code resp =? code); reflexivity.
Qed.

Section MoreFacts.
Context {P : Platform}.

(** Each operation either refuses locally, leaving the world as it was, or
    is one exchange. *)
Lemma run_op_cases (o : treelist_op) :
  (rejected_locally o /\
   exists msg, forall w, run_op o w = (Raise (ValueError msg), w)) \/
  (~ rejected_locally o /\
   exists req, forall w,
     run_op o w =
     (outcome (respond w (calls w ++ [req])%list) (success_code o) (decoded o),
      mk_world (respond w) (calls w ++ [req])%list (slept w))).
Proof.
  destruct o as [d n ds m|i u|d|i n ds|i d|d]; cbn [rejected_locally].
  - right. split; [tauto|]. eexists. intros w. cbn [run_op].
    rewrite create_treelist_exchange, fmap_exchange, rmap_outcome. reflexivity.
  - destruct (mem u ["metric"; "imperial"]) eqn:E.
    + right. split; [apply mem_units in E; tauto|]. eexists. intros w.
      cbn [run_op].
      rewrite (get_treelist_exchange i u E), fmap_exchange, rmap_outcome.
      reflexivity.
    + left. split.
      * split; intros ->; discriminate.
      * eexists. intros w. cbn [run_op]. unfold fmap, bind, get_treelist.
        rewrite E. reflexivity.
  - right. split; [tauto|]. eexists. intros w. cbn [run_op].
    rewrite list_treelists_exchange, fmap_exchange, rmap_outcome. reflexivity.
  - destruct n as [n|]; [|destruct ds as [ds|]].
    + right. split; [tauto|]. eexists. intros w. cbn [run_op].
      rewrite (@update_treelist_exchange _ i (Some n) ds)
        by (left; discriminate).
      rewrite fmap_exchange, rmap_outcome. reflexivity.
    + right. split; [tauto|]. eexists. intros w. cbn [run_op].
      rewrite (@update_treelist_exchange _ i None (Some ds))
        by (right; discriminate).
      rewrite fmap_exchange, rmap_outcome. reflexivity.
    + left. split; [exact I|]. eexists. intros w. reflexivity.
  - right. split; [tauto|]. eexists. intros w. cbn [run_op].
    rewrite delete_treelist_exchange, fmap_exchange, rmap_outcome. reflexivity.
  - right. split; [tauto|]. eexists. intros w. cbn [run_op].
    rewrite delete_all_treelists_exchange, fmap_exchange, rmap_outcome.
    reflexivity.
Qed.

(** X1.  Local validation is confined to two places.  An operation sends
    no request exactly when it is [get_treelist] with units other than
    "metric" and "imperial" or [update_treelist] with neither field; it
    then raises [ValueError] and leaves the world as it was.  Every other
    call, whatever its arguments, empty strings included, goes to the
    service. *)
Theorem local_validation_only_units_and_fields (o : treelist_op) (w : world) :
  (calls (snd (run_op o w)) = calls w <-> rejected_locally o) /\
  (rejected_locally o ->
   exists msg, run_op o w = (Raise (ValueError msg), w)).
Proof.
  destruct (run_op_cases o) as [[Hrej [msg Hrun]]|[Hok [req Hrun]]];
    rewrite Hrun; cbn.
  - split; [tauto|]. intros _. eauto.
  - split; [|contradiction]. split; [|contradiction].
    intros H. now apply snoc_neq in H.
Qed.

(** X2.  A transport failure is not handled: when the request of an
    operation gets no response, the operation raises [ConnectionError],
    and that request is the only one it sent. *)
Theorem transport_failure_propagates (o : treelist_op) (w : world)
    (req : request) :
  calls (snd (run_op o w)) = (calls w ++ [req])%list ->
  respond w (calls w ++ [req])%list = None ->
  run_op o w =
  (Raise ConnectionError,
   mk_world (respond w) (calls w ++ [req])%list (slept w)).
Proof.
  intros Hcalls Hnone.
  destruct (run_op_cases o) as [[_ [msg Hrun]]|[_ [req0 Hrun]]];
    rewrite Hrun in *; cbn in Hcalls.
  - symmetry in Hcalls. now apply snoc_neq in Hcalls.
  - apply app_inv_head in Hcalls. injection Hcalls as <-.
    now rewrite Hnone.
Qed.

(** X3.  Both branches of every operation decode the body as JSON, so an
    answer whose body is not JSON makes the operation raise
    [JSONDecodeError] whatever its status: an error status with such a body
    does not surface as [HTTPError]. *)
Theorem non_json_body_hides_status (o : treelist_op) (w : world)
    (req : request) (resp : response) :
  answered (run_op o) w req resp ->
  json_body resp = None ->
  fst (run_op o w) = Raise JSONDecodeError.
Proof.
  intros [Hcalls Hresp] Hbody.
  destruct (run_op_cases o) as [[_ [msg Hrun]]|[_ [req0 Hrun]]];
    rewrite Hrun in *; cbn in Hcalls |- *.
  - symmetry in Hcalls. now apply snoc_neq in Hcalls.
  - apply app_inv_head in Hcalls. injection Hcalls as <-.
    unfold outcome. now rewrite Hresp, Hbody.
Qed.
End MoreFacts.

Section Requests.
Context {P : Platform}.

Lemma filtered_url_differs (s : string) :
  API_URL ++ "/treelists?dataset_id=" ++ s <> API_URL ++ "/treelists".
Proof. intros H. apply append_cancel in H. discriminate. Qed.

(** X4.  The dataset filter of [list_treelists] and of
    [delete_all_treelists] is tested for truth, not for [None]: the request
    goes to the unfiltered URL exactly when the filter is [None] or the
    empty string, so a bulk delete called with an empty dataset id deletes
    across all datasets; a non-empty filter is put in the [dataset_id]
    query parameter. *)
Theorem empty_filter_is_no_filter (dataset_id : option string) (w : world) :
  (calls (snd (list_treelists dataset_id w)) =
   (calls w ++ [mk_request GET (API_URL ++ "/treelists") None []])%list <->
   dataset_id = None \/ dataset_id = Some "") /\
  (calls (snd (delete_all_treelists dataset_id w)) =
   (calls w ++ [mk_request DELETE (API_URL ++ "/treelists") None []])%list <->
   dataset_id = None \/ dataset_id = Some "") /\
  (forall s, dataset_id = Some s -> s <> "" ->
     calls (snd (list_treelists dataset_id w)) =
     (calls w ++ [mk_request GET (API_URL ++ "/treelists?dataset_id=" ++ s)
                    None []])%list /\
     calls (snd (delete_all_treelists dataset_id w)) =
     (calls w ++ [mk_request DELETE (API_URL ++ "/treelists?dataset_id=" ++ s)
                    None []])%list).
Proof.
  rewrite list_treelists_exchange, delete_all_treelists_exchange, !exchange_run.
  cbn [snd calls].
  destruct dataset_id as [[|c d]|]; cbn [truthy text].
  - split; [|split]; [split; auto|split; auto|].
    intros s [= <-] H. contradiction.
  - split; [|split].
    + split; [|intros [H|H]; discriminate].
      intros H. apply app_inv_head in H. injection H as H.
      now apply filtered_url_differs in H.
    + split; [|intros [H|H]; discriminate].
      intros H. apply app_inv_head in H. injection H as H.
      now apply filtered_url_differs in H.
    + intros s' [= <-] _. split; reflexivity.
  - split; [|split]; [split; auto|split; auto|].
    intros s [=].
Qed.

(** X5.  The payload of [update_treelist] is the dump of an object that
    holds [name] exactly when a non-empty name was supplied and
    [description] exactly when a non-empty description was, each with the
    value supplied, and nothing else: an empty string is dropped
    silently, and the treelist id travels in the URL only. *)
Theorem update_treelist_payload (treelist_id : string)
    (name description : option string) (w : world) :
  name <> None \/ description <> None ->
  exists fields,
    calls (snd (update_treelist treelist_id name description w)) =
    (calls w ++ [mk_request PATCH (API_URL ++ "/treelists/" ++ treelist_id)
                   (Some (json_dumps (JObj fields))) []])%list /\
    (forall v, lookup "name" fields = Some v <->
               exists n, name = Some n /\ n <> "" /\ v = JStr n) /\
    (forall v, lookup "description" fields = Some v <->
               exists d, description = Some d /\ d <> "" /\ v = JStr d) /\
    (forall k v, In (k, v) fields -> k = "name" \/ k = "description").
Proof.
  intros H. exists (payload_fields name description).
  rewrite (update_treelist_exchange treelist_id H), exchange_run.
  split; [reflexivity|].
  clear H.
  assert (forall o : option string,
            forall v, (if truthy o then Some (JStr (text o)) else None) = Some v <->
                      exists n, o = Some n /\ n <> "" /\ v = JStr n) as Hsome.
  { intros [[|c n]|] v; cbn; split.
    - discriminate.
    - intros (x & [= <-] & Hx & _). contradiction.
    - intros [= <-]. exists (String c n). repeat split. discriminate.
    - intros (x & [= <-] & _ & ->). reflexivity.
    - discriminate.
    - intros (x & [=] & _). }
  split; [|split].
  - intros v. rewrite <- Hsome. unfold payload_fields.
    destruct (truthy name), (truthy description); reflexivity.
  - intros v. rewrite <- Hsome. unfold payload_fields.
    destruct (truthy name), (truthy description); reflexivity.
  - intros k v. unfold payload_fields.
    destruct (truthy name), (truthy description); cbn;
      intros Hin; repeat (destruct Hin as [[= <- _]|Hin]; auto);
      contradiction.
Qed.

(** X6.  [update_treelist_data] reaches the service exactly when a table
    is supplied.  It then sends one PUT whose only part, named [file], is
    the CSV text of the table; the file name takes no part in it, so
    a call that passes both uploads the table and never reads the file. *)
Theorem update_treelist_data_needs_table (treelist_id : string)
    (filename : option string) (data : option DataFrame) (w : world) :
  (calls (snd (update_treelist_data treelist_id filename data w)) = calls w <->
   data = None) /\
  (forall df, data = Some df ->
     calls (snd (update_treelist_data treelist_id filename data w)) =
     (calls w ++ [mk_request PUT
                    (API_URL ++ "/treelists/" ++ treelist_id ++ "/data")
                    None [("file", to_csv df)]])%list /\
     update_treelist_data treelist_id filename data w =
     update_treelist_data treelist_id None data w).
Proof.
  destruct data as [df|].
  - rewrite !update_treelist_data_exchange, exchange_run. cbn [snd calls].
    split.
    + split; [|discriminate]. intros H. now apply snoc_neq in H.
    + intros df' [= <-]. split; reflexivity.
  - split; [|discriminate]. split; [reflexivity|].
    intros _. destruct filename; reflexivity.
Qed.
End Requests.

Section DataFacts.
Context {P : Platform}.
Variable content_of : list request -> string.
Variable read_csv : string -> result DataFrame.

(** X7.  [get_treelist_data] sends one GET for the CSV form of the data.
    On status 200 the body is handed to the CSV reader as it is and is
    never decoded as JSON, so the result is whatever the reader makes of
    the bytes; on another status the body is decoded as JSON and raised
    in [HTTPError], and a body that is not JSON raises [JSONDecodeError]
    in its place. *)
Theorem get_treelist_data_outcome (treelist_id : string) (w : world) :
  let req := mk_request GET
               (API_URL ++ "/treelists/" ++ treelist_id ++ "/data?fmt=csv")
               None [] in
  let run := get_treelist_data content_of read_csv treelist_id w in
  calls (snd run) = (calls w ++ [req])%list /\
  forall resp,
    respond w (calls w ++ [req])%list = Some resp ->
    (status_code resp = 200 ->
     fst run = read_csv (content_of (calls w ++ [req])%list)) /\
    (status_code resp <> 200 ->
     forall body, json_body resp = Some body ->
                  fst run = Raise (HTTPError body)) /\
    (status_code resp <> 200 -> json_body resp = None ->
     fst run = Raise JSONDecodeError).
Proof.
  intros req run. subst run.
  unfold get_treelist_data, bind, send, content, json_of, raise, lift.
  fold req.
  destruct (respond w (calls w ++ [req])%list) as [resp|] eqn:Hresp;
    [|split; [reflexivity|discriminate]].
  destruct (Z.eqb_spec (status_code resp) 200) as [E|E]; cbn [negb].
  - split; [reflexivity|]. intros r [= <-].
    split; [reflexivity|]. split; contradiction.
  - destruct (json_body resp) as [body|] eqn:Hbody.
    + split; [reflexivity|]. intros r [= <-]. rewrite Hbody.
      split; [contradiction|]. split; [|discriminate].
      now intros _ b [= <-].
    + split; [reflexivity|]. intros r [= <-]. rewrite Hbody.
      split; [contradiction|]. split; [discriminate|reflexivity].
Qed.
End DataFacts.

(** ** Decoding *)

From Stdlib Require Import Permutation.

Lemma comprehension_Return_iff {A B} (f : A -> result B) (xs : list A)
    (ys : list B) :
  comprehension f xs = Return ys <->
  Forall2 (fun x y => f x = Return y) xs ys.
Proof.
  split; [|apply comprehension_Forall2].
  revert ys. induction xs as [|x xs IH]; cbn; intros ys.
  - intros [= <-]. constructor.
  - destruct (f x) as [y|e] eqn:Hx; cbn; [|discriminate].
    destruct (comprehension f xs) as [ys'|e]; cbn; [|discriminate].
    intros [= <-]. constructor; auto.
Qed.

Lemma comprehension_Raise_iff {A B} (f : A -> result B) (xs : list A)
    (e : exn) :
  comprehension f xs = Raise e <->
  exists pre x post ys,
    xs = (pre ++ x :: post)%list /\
    Forall2 (fun a b => f a = Return b) pre ys /\
    f x = Raise e.
Proof.
  split.
  - induction xs as [|x xs IH]; cbn; [discriminate|].
    destruct (f x) as [y|e'] eqn:Hx; cbn.
    + destruct (comprehension f xs) as [ys|e'']; cbn; [discriminate|].
      intros [= ->]. destruct (IH eq_refl) as (pre & x' & post & ys & -> & Hpre & Hx').
      exists (x :: pre), x', post, (y :: ys). repeat split; auto.
    + intros [= ->]. exists [], x, xs, []. repeat split; auto.
  - intros (pre & x & post & ys & -> & Hpre & Hx).
    induction Hpre as [|a b pre ys Ha _ IH]; cbn.
    + now rewrite Hx.
    + now rewrite Ha, IH.
Qed.

Lemma lookup_Permutation (kw kw' : list (string * json)) :
  Permutation kw kw' -> NoDup (map fst kw) ->
  forall k, lookup k kw = lookup k kw'.
Proof.
  induction 1 as [|[k0 v0] l l' Hperm IH|[k1 v1] [k2 v2] l|l l' l'' H1 IH1 H2 IH2];
    intros Hnd k; cbn in *.
  - reflexivity.
  - apply NoDup_cons_iff in Hnd. destruct Hnd as [_ Hnd].
    now rewrite (IH Hnd k).
  - apply NoDup_cons_iff in Hnd. destruct Hnd as [Hne _]. cbn in Hne.
    destruct (String.eqb_spec k k1) as [E1|_], (String.eqb_spec k k2) as [E2|_];
      try reflexivity.
    elim Hne. left. congruence.
  - rewrite (IH1 Hnd k). apply IH2.
    apply (Permutation_NoDup (Permutation_map fst H1) Hnd).
Qed.

Section Decoding.
Context {P : Platform}.

(** X8.  How construction fails.  Decoding an object raises a
    [ValueError] exactly when binding succeeds, that is the object has the
    ten fields and no other, and [created_on] is a string the ISO-8601
    parser rejects; if [created_on] is present and is not a string (a JSON
    null or a number, say) the object never decodes and the exception is
    [TypeError].  No exception other than [TypeError] and [ValueError]
    comes out of construction. *)
Theorem Treelist_construction_errors (kw : list (string * json)) :
  ((exists msg, Treelist_of (JObj kw) = Raise (ValueError msg)) <->
   (forall k v, In (k, v) kw -> In k Treelist.params) /\
   (forall k, In k Treelist.params -> lookup k kw <> None) /\
   (exists s, lookup "created_on" kw = Some (JStr s) /\
              fromisoformat s = None)) /\
  (forall v, lookup "created_on" kw = Some v ->
             (forall s, v <> JStr s) ->
             Treelist_of (JObj kw) = Raise TypeError) /\
  (forall e, Treelist_of (JObj kw) = Raise e ->
             e = TypeError \/ exists msg, e = ValueError msg).
Proof.
  change (Treelist_of (JObj kw)) with (Treelist_kwargs kw).
  assert ((exists msg, Treelist_kwargs kw = Raise (ValueError msg)) <->
          (forall k v, In (k, v) kw -> In k Treelist.params) /\
          (forall k, In k Treelist.params -> lookup k kw <> None) /\
          (exists s, lookup "created_on" kw = Some (JStr s) /\
                     fromisoformat s = None)) as Hvalue.
  { rewrite <- unexpected_false. split.
    - intros [msg Hmsg]. revert Hmsg.
      unfold Treelist_kwargs, arg, Treelist__init__, parse_created_on, rbind.
      destruct (unexpected Treelist.params kw); [discriminate|].
      repeat match goal with
        | |- context [lookup ?k kw] =>
            let E := fresh "E" in
            destruct (lookup k kw) eqn:E; cbn; try discriminate
        end.
      match goal with
      | |- context [match ?c with JNull => _ | _ => _ end] =>
          destruct c; try discriminate
      end.
      destruct (fromisoformat s) eqn:Hs; [discriminate|].
      intros _. split; [reflexivity|]. split; [|eauto].
      intros k Hk. cbn in Hk.
      repeat (destruct Hk as [<-|Hk]; [congruence|]). contradiction.
    - intros (Hu & Hall & (s & Hc & Hs)).
      unfold Treelist_kwargs, arg, Treelist__init__, parse_created_on, rbind.
      rewrite Hu, Hc.
      repeat match goal with
        | |- context [lookup ?k kw] =>
            let E := fresh "E" in
            destruct (lookup k kw) eqn:E; cbn;
            [|exfalso; apply (Hall k); [cbn; tauto|exact E]]
        end.
      rewrite Hs. eauto. }
  split; [exact Hvalue|split].
  - intros v Hv Hns.
    destruct (Treelist_kwargs kw) as [t|e] eqn:E.
    + apply Treelist_kwargs_Return in E.
      destruct E as (_ & _ & _ & _ & _ & _ & _ & _ & _ & _ & s & Hs & _).
      rewrite Hv in Hs. injection Hs as ->. now elim (Hns s).
    + destruct (Treelist_kwargs_Raise _ E) as [-> | ->]; [reflexivity|].
      destruct (proj1 Hvalue (ex_intro _ _ eq_refl)) as (_ & _ & (s & Hs & _)).
      rewrite Hv in Hs. injection Hs as ->. now elim (Hns s).
  - intros e E. destruct (Treelist_kwargs_Raise _ E) as [-> | ->]; eauto.
Qed.

(** X9.  Keywords are bound by name: two objects with the same fields in
    different orders decode alike, to the same record or to the same
    exception. *)
Theorem Treelist_of_field_order (kw kw' : list (string * json)) :
  Permutation kw kw' ->
  NoDup (map fst kw) ->
  Treelist_of (JObj kw) = Treelist_of (JObj kw').
Proof.
  intros Hperm Hnd. apply Treelist_kwargs_ext.
  now apply lookup_Permutation.
Qed.

(** X10.  The list an operation returns is all or nothing.  For a body
    whose [treelists] entry is an array, decoding returns a list exactly
    when every element decodes, the list then having one record per element
    in the array's order; otherwise it raises the exception of the first
    element that fails, and the records decoded before it are lost. *)
Theorem Treelists_of_all_or_nothing (fields : list (string * json))
    (items : list json) :
  lookup "treelists" fields = Some (JArr items) ->
  (forall ts,
     Treelists_of (JObj fields) = Return ts <->
     Forall2 (fun item t => Treelist_of item = Return t) items ts) /\
  (forall ts, Treelists_of (JObj fields) = Return ts ->
              length ts = length items) /\
  (forall e,
     Treelists_of (JObj fields) = Raise e <->
     exists pre x post ts,
       items = (pre ++ x :: post)%list /\
       Forall2 (fun item t => Treelist_of item = Return t) pre ts /\
       Treelist_of x = Raise e).
Proof.
  intros Hitems.
  assert (Treelists_of (JObj fields) = comprehension Treelist_of items) as ->.
  { unfold Treelists_of, subscript_treelists. now rewrite Hitems. }
  split; [|split].
  - intros ts. apply comprehension_Return_iff.
  - intros ts H. apply comprehension_Return_iff in H.
    symmetry. eapply Forall2_length. exact H.
  - intros e. apply comprehension_Raise_iff.
Qed.

(** X11.  A [treelists] entry that is not an array.  Iterating an empty
    string or an empty object yields nothing, so either is taken for an
    empty collection; the result is the empty list exactly for an empty
    array, an empty object and an empty string, and any other entry that
    is not an array raises [TypeError]. *)
Theorem Treelists_of_empty (fields : list (string * json)) (x : json) :
  lookup "treelists" fields = Some x ->
  (Treelists_of (JObj fields) = Return [] <->
   x = JArr [] \/ x = JObj [] \/ x = JStr "") /\
  ((forall items, x <> JArr items) ->
   Treelists_of (JObj fields) = Return [] \/
   Treelists_of (JObj fields) = Raise TypeError).
Proof.
  intros Hx. unfold Treelists_of, subscript_treelists. rewrite Hx.
  destruct x as [|b|n|m e|s|items|kw]; cbn.
  - split; [split; [discriminate|intuition discriminate]|auto].
  - split; [split; [discriminate|intuition discriminate]|auto].
  - split; [split; [discriminate|intuition discriminate]|auto].
  - split; [split; [discriminate|intuition discriminate]|auto].
  - destruct s as [|c s]; cbn.
    + split; [split; auto|auto].
    + split; [split; [discriminate|intuition discriminate]|auto].
  - split.
    + destruct items as [|i items]; cbn; [split; auto|].
      split; [|intuition discriminate].
      destruct (Treelist_of i); cbn; [|discriminate].
      destruct (comprehension Treelist_of items); cbn; discriminate.
    + intros H. now elim (H items).
  - destruct kw as [|[k v] kw]; cbn.
    + split; [split; auto|auto].
    + split; [split; [discriminate|intuition discriminate]|auto].
Qed.

(** X12.  A 200 answer that is JSON but holds no [treelists] entry makes
    [list_treelists] raise [KeyError], and one that is no object at all
    [TypeError]: a success status with an unexpected body is not reported
    as a request error. *)
Theorem list_treelists_unexpected_body (dataset_id : option string)
    (w : world) (req : request) (resp : response) (body : json) :
  answered (list_treelists dataset_id) w req resp ->
  status_code resp = 200 ->
  json_body resp = Some body ->
  (forall fields, body = JObj fields -> lookup "treelists" fields = None ->
     fst (list_treelists dataset_id w) = Raise (KeyError "treelists")) /\
  ((forall fields, body <> JObj fields) ->
     fst (list_treelists dataset_id w) = Raise TypeError).
Proof.
  intros Hans Hcode Hbody.
  rewrite list_treelists_exchange in *.
  destruct (answered_exchange Hans Hbody) as [_ ->]. rewrite Hcode. cbn.
  split.
  - intros fields -> Hnone. unfold Treelists_of, subscript_treelists.
    now rewrite Hnone.
  - intros H. destruct body; try reflexivity. now elim (H fields).
Qed.
End Decoding.


(** ** More on the polling loop *)

Section PollingMore.
Context {P : Platform}.
Variable Fuelgrid_of : json -> result Fuelgrid.t.
Variable temp_id : string.

Local Notation "'req'" :=
  (mk_request GET (API_URL ++ "/fuelgrids/" ++ temp_id) None []).

Lemma not_finished (r : Fuelgrid.t) :
  Fuelgrid.status r <> JStr "Finished" ->
  eq_str (Fuelgrid.status r) "Finished" = false.
Proof.
  intros H. destruct (eq_str (Fuelgrid.status r) "Finished") eqn:E;
    [|reflexivity]. now apply eq_str_true in E.
Qed.

Lemma get_fuelgrid_refused (w : world) (resp : response) (body : json) :
  respond w (calls w ++ [req])%list = Some resp ->
  status_code resp <> 200 ->
  json_body resp = Some body ->
  get_fuelgrid Fuelgrid_of temp_id w =
  (Raise (HTTPError body),
   mk_world (respond w) (calls w ++ [req])%list (slept w)).
Proof.
  intros Hresp Hcode Hbody.
  rewrite get_fuelgrid_exchange, exchange_run. unfold outcome.
  rewrite Hresp, Hbody.
  now destruct (Z.eqb_spec (status_code resp) 200).
Qed.

Lemma while_not_finished_refused (resp : response) (body : json) :
  status_code resp <> 200 ->
  json_body resp = Some body ->
  forall (next : list Fuelgrid.t) (current : Fuelgrid.t) (w : world)
         (fuel : nat),
    Fuelgrid.status current <> JStr "Finished" ->
    Forall (fun r => Fuelgrid.status r <> JStr "Finished") next ->
    (forall k r, nth_error next k = Some r ->
                 served Fuelgrid_of w req (S k) r) ->
    respond w (calls w ++ repeat req (S (length next)))%list = Some resp ->
    (length next < fuel)%nat ->
    while_not_finished Fuelgrid_of fuel temp_id current w =
    (Raise (HTTPError body),
     mk_world (respond w) (calls w ++ repeat req (S (length next)))%list
              (slept w + 2 * Z.of_nat (length next))).
Proof.
  intros Hcode Hbody.
  induction next as [|c next IH];
    intros current w fuel Hcur Hnext Hserved Hresp Hfuel;
    (destruct fuel as [|fuel]; [cbn in Hfuel; lia|]);
    cbn [while_not_finished]; rewrite (not_finished _ Hcur); cbn [negb];
    unfold bind at 1.
  - cbn in Hresp.
    rewrite (get_fuelgrid_refused w Hresp Hcode Hbody).
    cbn. now rewrite Z.add_0_r.
  - rewrite (get_fuelgrid_served temp_id (Hserved 0%nat c eq_refl)).
    unfold bind at 1, sleep at 1. cbn [respond calls slept].
    apply Forall_cons_iff in Hnext. destruct Hnext as [Hc Hnext].
    rewrite (IH c _ fuel Hc Hnext).
    + cbn [respond calls slept length repeat].
      rewrite <- app_assoc. cbn [app]. do 2 f_equal. lia.
    + intros k r Hk. apply (served_shift temp_id). apply Hserved. exact Hk.
    + cbn [respond calls]. rewrite <- app_assoc. exact Hresp.
    + cbn in Hfuel. lia.
Qed.

(** X13.  A request error during polling is not swallowed: when the GETs
    are answered with unfinished records and then with a status other
    than 200, polling raises [HTTPError] with the decoded body of that
    answer and sends nothing after it, having slept only between the
    requests that succeeded. *)
Theorem poll_request_error_propagates (pending : list Fuelgrid.t)
    (w : world) (fuel : nat) (resp : response) (body : json) :
  Forall (fun r => Fuelgrid.status r <> JStr "Finished") pending ->
  (forall k r, nth_error pending k = Some r ->
               served Fuelgrid_of w req (S k) r) ->
  respond w (calls w ++ repeat req (S (length pending)))%list = Some resp ->
  status_code resp <> 200 ->
  json_body resp = Some body ->
  (length pending <= fuel)%nat ->
  poll Fuelgrid_of fuel temp_id w =
  (Raise (HTTPError body),
   mk_world (respond w) (calls w ++ repeat req (S (length pending)))%list
            (slept w + 2 * Z.of_nat (Nat.pred (length pending)))).
Proof.
  intros Hpend Hserved Hresp Hcode Hbody Hfuel. unfold poll, bind.
  destruct pending as [|p next].
  - cbn in Hresp. rewrite (get_fuelgrid_refused w Hresp Hcode Hbody).
    cbn. now rewrite Z.add_0_r.
  - rewrite (get_fuelgrid_served temp_id (Hserved 0%nat p eq_refl)).
    apply Forall_cons_iff in Hpend. destruct Hpend as [Hp Hnext].
    rewrite (@while_not_finished_refused resp body Hcode Hbody next p).
    + cbn [respond calls slept length repeat Nat.pred].
      rewrite <- app_assoc. reflexivity.
    + exact Hp.
    + exact Hnext.
    + intros k r Hk. apply (served_shift temp_id). apply (Hserved (S k)). exact Hk.
    + cbn [respond calls]. rewrite <- app_assoc. exact Hresp.
    + cbn in Hfuel. lia.
Qed.

Lemma while_not_finished_goes_on (fuel : nat) :
  forall (current : Fuelgrid.t) (w : world),
    Fuelgrid.status current <> JStr "Finished" ->
    (forall k, exists r, served Fuelgrid_of w req (S k) r /\
                         Fuelgrid.status r <> JStr "Finished") ->
    while_not_finished Fuelgrid_of fuel temp_id current w =
    (Return None,
     mk_world (respond w) (calls w ++ repeat req fuel)%list
              (slept w + 2 * Z.of_nat fuel)).
Proof.
  induction fuel as [|fuel IH]; intros current w Hcur Hserved;
    cbn [while_not_finished]; rewrite (not_finished _ Hcur); cbn [negb].
  - cbn. rewrite app_nil_r, Z.add_0_r. now destruct w.
  - unfold bind at 1.
    destruct (Hserved 0%nat) as (r & Hr & Hst).
    rewrite (get_fuelgrid_served temp_id Hr).
    unfold bind at 1, sleep at 1. cbn [respond calls slept].
    rewrite (IH r _ Hst).
    + cbn [respond calls slept repeat]. rewrite <- app_assoc. cbn [app].
      do 2 f_equal. lia.
    + intros k. destruct (Hserved (S k)) as (r' & Hr' & Hst').
      exists r'. split; [now apply (served_shift temp_id)|exact Hst'].
Qed.

(** X14.  The loop has no bound of its own.  Against a service that
    keeps answering with records whose status is not "Finished", polling
    is still running after any number of iterations, having sent one
    request more than it made iterations and slept two time units in
    each. *)
Theorem poll_never_gives_up (w : world) (fuel : nat) :
  (forall k, exists r, served Fuelgrid_of w req (S k) r /\
                       Fuelgrid.status r <> JStr "Finished") ->
  poll Fuelgrid_of fuel temp_id w =
  (Return None,
   mk_world (respond w) (calls w ++ repeat req (S fuel))%list
            (slept w + 2 * Z.of_nat fuel)).
Proof.
  intros Hserved. unfold poll, bind.
  destruct (Hserved 0%nat) as (r & Hr & Hst).
  rewrite (get_fuelgrid_served temp_id Hr).
  rewrite (while_not_finished_goes_on fuel _ Hst).
  - cbn [respond calls slept repeat]. rewrite <- app_assoc. reflexivity.
  - intros k. destruct (Hserved (S k)) as (r' & Hr' & Hst').
    exists r'. split; [now apply (served_shift temp_id)|exact Hst'].
Qed.

Lemma while_not_finished_log (fuel : nat) :
  forall (current : Fuelgrid.t) (w : world),
    exists n,
      (n <= fuel)%nat /\
      calls (snd (while_not_finished Fuelgrid_of fuel temp_id current w)) =
      (calls w ++ repeat req n)%list /\
      respond (snd (while_not_finished Fuelgrid_of fuel temp_id current w)) =
      respond w /\
      slept w <=
      slept (snd (while_not_finished Fuelgrid_of fuel temp_id current w)) <=
      slept w + 2 * Z.of_nat n.
Proof.
  induction fuel as [|fuel IH]; intros current w; cbn [while_not_finished];
    destruct (eq_str (Fuelgrid.status current) "Finished"); cbn [negb];
    try (exists 0%nat; cbn; rewrite app_nil_r; repeat split; lia).
  assert ((fuelgrid <- get_fuelgrid Fuelgrid_of temp_id ;;
           sleep 2 ;;; while_not_finished Fuelgrid_of fuel temp_id fuelgrid) w
          = match outcome (respond w (calls w ++ [req])%list) 200 Fuelgrid_of with
            | Return fg =>
                while_not_finished Fuelgrid_of fuel temp_id fg
                  (mk_world (respond w) (calls w ++ [req])%list (slept w + 2))
            | Raise e =>
                (Raise e, mk_world (respond w) (calls w ++ [req])%list (slept w))
            end) as ->.
  { unfold bind at 1. rewrite get_fuelgrid_exchange, exchange_run.
    destruct (outcome _ 200 Fuelgrid_of); reflexivity. }
  destruct (outcome _ 200 Fuelgrid_of) as [fg|e].
  - destruct (IH fg (mk_world (respond w) (calls w ++ [req])%list (slept w + 2)))
      as (n & Hn & Hcalls & Hresp & Hslept).
    cbn [respond calls slept] in *.
    exists (S n). split; [lia|].
    split; [rewrite Hcalls, <- app_assoc; reflexivity|].
    split; [exact Hresp|]. rewrite Nat2Z.inj_succ. lia.
  - exists 1%nat. cbn. repeat split; lia.
Qed.

(** X15.  Polling does nothing but fetch and wait.  Whatever the service
    answers, the requests polling adds to the log are GETs of the one
    fuelgrid URL, at least one and at most one more than the iterations
    run; the time slept is at most two units for each request after the
    first. *)
Theorem poll_only_fetches (w : world) (fuel : nat) :
  exists n,
    (1 <= n <= S fuel)%nat /\
    calls (snd (poll Fuelgrid_of fuel temp_id w)) =
    (calls w ++ repeat req n)%list /\
    respond (snd (poll Fuelgrid_of fuel temp_id w)) = respond w /\
    slept w <= slept (snd (poll Fuelgrid_of fuel temp_id w))
    <= slept w + 2 * Z.of_nat (Nat.pred n).
Proof.
  assert (poll Fuelgrid_of fuel temp_id w
          = match outcome (respond w (calls w ++ [req])%list) 200 Fuelgrid_of with
            | Return fg =>
                while_not_finished Fuelgrid_of fuel temp_id fg
                  (mk_world (respond w) (calls w ++ [req])%list (slept w))
            | Raise e =>
                (Raise e, mk_world (respond w) (calls w ++ [req])%list (slept w))
            end) as ->.
  { unfold poll, bind. rewrite get_fuelgrid_exchange, exchange_run.
    destruct (outcome _ 200 Fuelgrid_of); reflexivity. }
  destruct (outcome _ 200 Fuelgrid_of) as [fg|e].
  - destruct (while_not_finished_log fuel fg
                (mk_world (respond w) (calls w ++ [req])%list (slept w)))
      as (n & Hn & Hcalls & Hresp & Hslept).
    cbn [respond calls slept] in *.
    exists (S n). split; [lia|].
    split; [rewrite Hcalls, <- app_assoc; reflexivity|].
    split; [exact Hresp|]. cbn [Nat.pred]. lia.
  - exists 1%nat. cbn. repeat split; lia.
Qed.
End PollingMore.


(** ** Closed instances of the further properties *)

Lemma local_validation_only_units_and_fields_witness :
  calls (snd (run_op (Update "t1" None None) (serving 200))) = [] /\
  exists msg,
    run_op (Update "t1" None None) (serving 200) =
    (Raise (ValueError msg), serving 200).
Proof.
  split.
  - exact (proj2 (proj1 (local_validation_only_units_and_fields
                           (Update "t1" None None) (serving 200))) I).
  - exact (proj2 (local_validation_only_units_and_fields
                    (Update "t1" None None) (serving 200)) I).
Defined.

Lemma transport_failure_propagates_witness :
  fst (run_op (Create "d1" "trees" "demo" "random") unreachable) =
  Raise ConnectionError.
Proof.
  assert (exists x,
            calls (snd (run_op (Create "d1" "trees" "demo" "random") unreachable))
            = (calls unreachable ++ [x])%list) as [x Hx]
    by (eexists; reflexivity).
  now rewrite (transport_failure_propagates _ _ _ Hx eq_refl).
Defined.

Lemma non_json_body_hides_status_witness :
  fst (run_op (Get "t1" "metric") garbled) = Raise JSONDecodeError.
Proof.
  assert (exists x, answered (run_op (Get "t1" "metric")) garbled x
                      (mk_response 500 None)) as [x Hx]
    by (eexists; split; reflexivity).
  exact (non_json_body_hides_status _ Hx eq_refl).
Defined.

Lemma empty_filter_is_no_filter_witness :
  calls (snd (delete_all_treelists (Some "") listing)) =
  [mk_request DELETE "https://api.example/treelists" None []] /\
  calls (snd (delete_all_treelists (Some "d1") listing)) =
  [mk_request DELETE "https://api.example/treelists?dataset_id=d1" None []].
Proof.
  split.
  - exact (proj2 (proj1 (proj2 (empty_filter_is_no_filter (Some "") listing)))
             (or_intror eq_refl)).
  - assert ("d1" <> "") as Hne by discriminate.
    exact (proj2 (proj2 (proj2 (empty_filter_is_no_filter (Some "d1") listing))
                    "d1" eq_refl Hne)).
Defined.

Lemma update_treelist_payload_witness :
  exists fields,
    calls (snd (update_treelist "t1" (Some "") (Some "pines") (serving 200))) =
    [mk_request PATCH "https://api.example/treelists/t1"
       (Some (dumps (JObj fields))) []] /\
    lookup "name" fields = None /\
    lookup "description" fields = Some (JStr "pines").
Proof.
  assert (Some "" <> None \/ Some "pines" <> None) as H by (left; discriminate).
  destruct (update_treelist_payload "t1" (serving 200) H)
    as (fields & Hcalls & Hname & Hdesc & _).
  exists fields. split; [exact Hcalls|]. split.
  - destruct (lookup "name" fields) as [v|] eqn:E; [|reflexivity].
    destruct (proj1 (Hname v) eq_refl) as (n & [= <-] & Hne & _).
    now elim Hne.
  - apply Hdesc. exists "pines". repeat split. discriminate.
Defined.

Lemma update_treelist_data_needs_table_witness :
  calls (snd (update_treelist_data "t1" (Some "other.csv") (Some trees)
                (serving 200))) =
  [mk_request PUT "https://api.example/treelists/t1/data" None
     [("file", csv trees)]] /\
  calls (snd (update_treelist_data "t1" (Some "other.csv") None (serving 200)))
  = [].
Proof.
  split.
  - exact (proj1 (proj2 (update_treelist_data_needs_table "t1"
                           (Some "other.csv") (Some trees) (serving 200))
                    trees eq_refl)).
  - exact (proj2 (proj1 (update_treelist_data_needs_table "t1"
                           (Some "other.csv") None (serving 200))) eq_refl).
Defined.

Lemma get_treelist_data_outcome_witness :
  fst (get_treelist_data (body_bytes (csv trees)) read_rows "t1" tabular) =
  Return trees /\
  fst (get_treelist_data (body_bytes (csv trees)) read_rows "t1" (failing 404)) =
  Raise (HTTPError not_found).
Proof.
  split.
  - exact (proj1 (proj2 (get_treelist_data_outcome (body_bytes (csv trees))
                           read_rows "t1" tabular)
                    (mk_response 200 None) eq_refl) eq_refl).
  - assert (status_code (mk_response 404 (Some not_found)) <> 200) as Hcode
      by discriminate.
    exact (proj1 (proj2 (proj2 (get_treelist_data_outcome
                                  (body_bytes (csv trees)) read_rows "t1"
                                  (failing 404))
                           (mk_response 404 (Some not_found)) eq_refl))
             Hcode not_found eq_refl).
Defined.

Lemma Treelist_construction_errors_witness :
  (exists msg,
     Treelist_of (JObj (with_field "created_on" (JStr "yesterday")
                          (treelist_fields "t1" "d1" "Finished"))) =
     Raise (ValueError msg)) /\
  Treelist_of (JObj (with_field "created_on" JNull
                       (treelist_fields "t1" "d1" "Finished"))) =
  Raise TypeError.
Proof.
  split.
  - apply (proj1 (Treelist_construction_errors _)).
    split; [|split].
    + intros k v Hin. cbn in Hin.
      repeat (destruct Hin as [[= <- <-]|Hin]; [cbn; tauto|]).
      contradiction.
    + intros k Hk. cbn in Hk.
      repeat (destruct Hk as [<-|Hk]; [discriminate|]). contradiction.
    + exists "yesterday". split; reflexivity.
  - apply (proj1 (proj2 (Treelist_construction_errors _)) JNull).
    + reflexivity.
    + discriminate.
Defined.

Lemma Treelist_of_field_order_witness :
  Treelist_of (JObj (rev (treelist_fields "t1" "d1" "Finished"))) =
  Return (treelist_record "t1" "d1" "Finished").
Proof.
  rewrite <- (Treelist_of_field_order
                (Permutation_rev (treelist_fields "t1" "d1" "Finished"))).
  - reflexivity.
  - cbn. repeat constructor; cbn; intuition discriminate.
Defined.

Lemma Treelists_of_all_or_nothing_witness :
  Treelists_of (JObj [("treelists",
                       JArr [treelist_json "t2" "d1" "Finished"; JNull;
                             treelist_json "t3" "d2" "Finished"])]) =
  Raise TypeError.
Proof.
  apply (proj2 (proj2 (Treelists_of_all_or_nothing
                         [("treelists",
                           JArr [treelist_json "t2" "d1" "Finished"; JNull;
                                 treelist_json "t3" "d2" "Finished"])]
                         eq_refl))).
  exists [treelist_json "t2" "d1" "Finished"], JNull,
         [treelist_json "t3" "d2" "Finished"],
         [treelist_record "t2" "d1" "Finished"].
  split; [reflexivity|]. split; [|reflexivity].
  constructor; [reflexivity|constructor].
Defined.

Lemma Treelists_of_empty_witness :
  Treelists_of (JObj [("treelists", JObj [])]) = Return [] /\
  Treelists_of (JObj [("treelists", JStr "")]) = Return [].
Proof.
  split.
  - apply (proj1 (Treelists_of_empty [("treelists", JObj [])] (x := JObj [])
                    eq_refl)).
    right. left. reflexivity.
  - apply (proj1 (Treelists_of_empty [("treelists", JStr "")] (x := JStr "")
                    eq_refl)).
    right. right. reflexivity.
Defined.

Lemma list_treelists_unexpected_body_witness :
  fst (list_treelists None (fresh (always (ok not_found)))) =
  Raise (KeyError "treelists").
Proof.
  assert (exists x, answered (list_treelists None)
                      (fresh (always (ok not_found))) x (ok not_found))
    as [x Hx] by (eexists; split; reflexivity).
  exact (proj1 (list_treelists_unexpected_body Hx eq_refl eq_refl)
           _ eq_refl eq_refl).
Defined.

Lemma poll_request_error_propagates_witness :
  poll Fuelgrid_of 1 "fg1"
    (fresh (script [ok (fuelgrid_json "fg1" "Pending");
                    mk_response 404 (Some not_found)])) =
  (Raise (HTTPError not_found),
   mk_world (script [ok (fuelgrid_json "fg1" "Pending");
                     mk_response 404 (Some not_found)])
            (repeat (mk_request GET "https://api.example/fuelgrids/fg1" None [])
                    2)
            0).
Proof.
  assert (status_code (mk_response 404 (Some not_found)) <> 200) as Hcode
    by discriminate.
  refine (poll_request_error_propagates (Fuelgrid_of := Fuelgrid_of) "fg1"
            (pending := [fuelgrid_record "fg1" "Pending"])
            (w := fresh (script [ok (fuelgrid_json "fg1" "Pending");
                                 mk_response 404 (Some not_found)]))
            (fuel := 1) (resp := mk_response 404 (Some not_found))
            _ _ eq_refl Hcode eq_refl _).
  - repeat constructor; discriminate.
  - intros [|[|k]] r Hk; cbn in Hk; try discriminate.
    injection Hk as <-. eexists. eexists. repeat split.
  - cbn. lia.
Defined.

Lemma poll_never_gives_up_witness :
  poll Fuelgrid_of 3 "fg1" (fresh (always (ok (fuelgrid_json "fg1" "Processing"))))
  = (Return None,
     mk_world (always (ok (fuelgrid_json "fg1" "Processing")))
              (repeat (mk_request GET "https://api.example/fuelgrids/fg1" None [])
                      4)
              6).
Proof.
  refine (poll_never_gives_up (Fuelgrid_of := Fuelgrid_of) "fg1"
            (w := fresh (always (ok (fuelgrid_json "fg1" "Processing")))) 3 _).
  intros k. exists (fuelgrid_record "fg1" "Processing"). split.
  - eexists. eexists. repeat split.
  - discriminate.
Defined.

(** * Status codes, listings and decoding, as the code has them *)

Section Outcomes.
Context {P : Platform}.

Lemma decoded_Raise (o : treelist_op) (body : json) (e : exn) :
  decoded o body = Raise e ->
  e = TypeError \/ e = KeyError "treelists" \/ exists msg, e = ValueError msg.
Proof.
  intros H.
  destruct o; cbn in H; apply rmap_Raise in H;
    (apply Treelist_of_Raise in H || apply Treelists_of_Raise in H);
    intuition eauto.
Qed.

(** C5, as the code has it.  Each of create, get, list, update, delete and
    delete_all, when its call passes the local validation, sends exactly
    one request, so nothing is retried.  When that request is answered
    with a JSON body, the operation raises [HTTPError] carrying that body
    exactly when the status differs from the operation's success code (201
    for create, 200 for the others); on the success code its result is
    that of decoding the body: the decoded resource or resources when the
    body decodes, and the decoder's [TypeError], [KeyError] or
    [ValueError] when it does not. *)
Theorem treelist_op_status_contract (o : treelist_op) (w : world) :
  ~ rejected_locally o ->
  exists req,
    calls (snd (run_op o w)) = (calls w ++ [req])%list /\
    forall resp body,
      respond w (calls w ++ [req])%list = Some resp ->
      json_body resp = Some body ->
      ((exists e, fst (run_op o w) = Raise (HTTPError e)) <->
       status_code resp <> success_code o) /\
      (status_code resp <> success_code o ->
       fst (run_op o w) = Raise (HTTPError body)) /\
      (status_code resp = success_code o ->
       fst (run_op o w) = decoded o body /\
       (forall r, decoded o body = Return r -> fst (run_op o w) = Return r) /\
       (forall e, decoded o body = Raise e ->
                  fst (run_op o w) = Raise e /\
                  (e = TypeError \/ e = KeyError "treelists" \/
                   exists msg, e = ValueError msg))).
Proof.
  intros Hok.
  destruct (run_op_cases o) as [[Hrej _]|[_ [req Hrun]]]; [contradiction|].
  exists req. rewrite Hrun. cbn [fst snd calls]. split; [reflexivity|].
  intros resp body Hresp Hbody. unfold outcome. rewrite Hresp, Hbody.
  destruct (Z.eqb_spec (status_code resp) (success_code o)) as [E|E].
  - split; [|split; [contradiction|]].
    + split; [|contradiction].
      intros [e He]. now apply decoded_not_HTTPError in He.
    + intros _. split; [reflexivity|]. split; [auto|].
      intros e He. split; [exact He|]. now apply decoded_Raise in He.
  - split; [|split; [reflexivity|contradiction]].
    split; eauto.
Qed.

(** C7 at the answers that break it.  A call of [update_treelist] that
    passes the guard and is answered with a status other than 200 and a
    body that is not JSON does not raise [HTTPError]: building the error
    decodes the body first, and that raises [JSONDecodeError]. *)
Theorem update_treelist_non_json_error (treelist_id : string)
    (name description : option string) (w : world) (resp : response) :
  name <> None \/ description <> None ->
  respond w (calls w ++
             [mk_request PATCH (API_URL ++ "/treelists/" ++ treelist_id)
                (Some (json_dumps (JObj (payload_fields name description))))
                []])%list = Some resp ->
  status_code resp <> 200 ->
  json_body resp = None ->
  fst (update_treelist treelist_id name description w) = Raise JSONDecodeError /\
  forall body,
    fst (update_treelist treelist_id name description w) <>
    Raise (HTTPError body).
Proof.
  intros H Hresp Hcode Hbody.
  rewrite (update_treelist_exchange treelist_id H), exchange_run.
  cbn [fst]. unfold outcome. rewrite Hresp, Hbody.
  split; [reflexivity|discriminate].
Qed.

(** C8, as the code has it.  [list_treelists] sends one GET; when it is
    answered with status 200 and an object whose [treelists] entry is an
    array, the call returns a list exactly when every element of the array
    decodes, the list then holding one record per element in the array's
    order; when some element does not decode, the call raises the
    exception of the first such element and returns nothing.  An empty
    array gives the empty list and no error. *)
Theorem list_treelists_ordered (dataset_id : option string) (w : world)
    (resp : response) (fields : list (string * json)) (items : list json) :
  let req := mk_request GET
               (if truthy dataset_id
                then API_URL ++ "/treelists?dataset_id=" ++ text dataset_id
                else API_URL ++ "/treelists") None [] in
  respond w (calls w ++ [req])%list = Some resp ->
  status_code resp = 200 ->
  json_body resp = Some (JObj fields) ->
  lookup "treelists" fields = Some (JArr items) ->
  calls (snd (list_treelists dataset_id w)) = (calls w ++ [req])%list /\
  (forall ts,
     fst (list_treelists dataset_id w) = Return ts <->
     Forall2 (fun item t => Treelist_of item = Return t) items ts) /\
  (forall ts, fst (list_treelists dataset_id w) = Return ts ->
              length ts = length items) /\
  (forall e,
     fst (list_treelists dataset_id w) = Raise e <->
     exists pre x post ts,
       items = (pre ++ x :: post)%list /\
       Forall2 (fun item t => Treelist_of item = Return t) pre ts /\
       Treelist_of x = Raise e) /\
  (items = [] -> fst (list_treelists dataset_id w) = Return []).
Proof.
  intros req Hresp Hcode Hbody Hitems.
  rewrite list_treelists_exchange, exchange_run. fold req.
  cbn [fst snd calls]. split; [reflexivity|].
  assert (outcome (respond w (calls w ++ [req])%list) 200 Treelists_of =
          comprehension Treelist_of items) as ->.
  { unfold outcome. rewrite Hresp, Hbody, Hcode. cbn.
    unfold Treelists_of, subscript_treelists. now rewrite Hitems. }
  split; [|split; [|split]].
  - intros ts. apply comprehension_Return_iff.
  - intros ts H. apply comprehension_Return_iff in H.
    symmetry. eapply Forall2_length. exact H.
  - intros e. apply comprehension_Raise_iff.
  - now intros ->.
Qed.

(** C9.  Decoding is consistent.  A decoded object is a dict, known by
    what each key looks up to and not by the order of its fields; when
    construction from one presentation of an object succeeds, construction
    from any presentation of the same object succeeds too, and the two
    records are equal on every field.  Constructing twice from one object
    is the case of one presentation. *)
Theorem Treelist_decoding_consistent (kw kw' : list (string * json))
    (t1 : Treelist.t) :
  (forall k, lookup k kw = lookup k kw') ->
  Treelist_of (JObj kw) = Return t1 ->
  exists t2,
    Treelist_of (JObj kw') = Return t2 /\
    Treelist.id t1 = Treelist.id t2 /\
    Treelist.name t1 = Treelist.name t2 /\
    Treelist.description t1 = Treelist.description t2 /\
    Treelist.method t1 = Treelist.method t2 /\
    Treelist.dataset_id t1 = Treelist.dataset_id t2 /\
    Treelist.status t1 = Treelist.status t2 /\
    Treelist.created_on t1 = Treelist.created_on t2 /\
    Treelist.summary t1 = Treelist.summary t2 /\
    Treelist.fuelgrids t1 = Treelist.fuelgrids t2 /\
    Treelist.version t1 = Treelist.version t2.
Proof.
  intros Hsame H1. exists t1. split; [|repeat split].
  change (Treelist_kwargs kw' = Return t1).
  now rewrite <- (Treelist_kwargs_ext kw kw' Hsame).
Qed.
End Outcomes.

(** C5 refuted as stated: a 200 answer whose JSON body is no treelist makes
    [get_treelist] raise [TypeError], neither a decoded resource nor an
    [HTTPError]; a 500 answer whose body is not JSON makes it raise
    [JSONDecodeError], not [HTTPError]. *)
Lemma treelist_op_other_bodies :
  fst (run_op (Get "t1" "metric") (fresh (always (ok not_found)))) =
  Raise TypeError /\
  fst (run_op (Get "t1" "metric") garbled) = Raise JSONDecodeError.
Proof. split; reflexivity. Qed.

Lemma treelist_op_status_contract_witness :
  fst (run_op (Create "d1" "trees" "demo" "random") (failing 404)) =
  Raise (HTTPError not_found) /\
  fst (run_op (Create "d1" "trees" "demo" "random") (serving 201)) =
  Return (One (treelist_record "t1" "d1" "Finished")) /\
  fst (run_op (DeleteAll (Some "d1")) listing) =
  Return (Many [treelist_record "t2" "d1" "Finished";
                treelist_record "t3" "d2" "Finished"]) /\
  fst (run_op (Update "t1" (Some "oaks") None) (fresh (always (ok not_found))))
  = Raise TypeError.
Proof.
  split; [|split; [|split]].
  - destruct (treelist_op_status_contract
                (Create "d1" "trees" "demo" "random") (failing 404)
                (fun f => f)) as (req & _ & H).
    assert (status_code (mk_response 404 (Some not_found)) <>
            success_code (Create "d1" "trees" "demo" "random")) as Hcode
      by discriminate.
    exact (proj1 (proj2 (H (mk_response 404 (Some not_found)) not_found
                           eq_refl eq_refl)) Hcode).
  - destruct (treelist_op_status_contract
                (Create "d1" "trees" "demo" "random") (serving 201)
                (fun f => f)) as (req & _ & H).
    exact (proj1 (proj2 (proj2 (proj2 (H _ _ eq_refl eq_refl)) eq_refl))
             (One (treelist_record "t1" "d1" "Finished")) eq_refl).
  - destruct (treelist_op_status_contract (DeleteAll (Some "d1")) listing
                (fun f => f)) as (req & _ & H).
    exact (proj1 (proj2 (proj2 (proj2 (H _ _ eq_refl eq_refl)) eq_refl))
             (Many [treelist_record "t2" "d1" "Finished";
                    treelist_record "t3" "d2" "Finished"]) eq_refl).
  - destruct (treelist_op_status_contract (Update "t1" (Some "oaks") None)
                (fresh (always (ok not_found))) (fun f => f)) as (req & _ & H).
    exact (proj1 (proj2 (proj2 (proj2 (proj2 (H _ _ eq_refl eq_refl)) eq_refl))
                    TypeError eq_refl)).
Defined.

Lemma update_treelist_non_json_error_witness :
  fst (update_treelist "t1" (Some "oaks") None garbled) = Raise JSONDecodeError.
Proof.
  assert (Some "oaks" <> None \/ @None string <> None) as H
    by (left; discriminate).
  assert (status_code (mk_response 500 None) <> 200) as Hcode by discriminate.
  exact (proj1 (update_treelist_non_json_error "t1" garbled
                  (resp := mk_response 500 None) H eq_refl Hcode eq_refl)).
Defined.

(** C8 refuted as stated: a 200 answer whose [treelists] array holds a
    well-formed treelist and one with an unknown field more makes
    [list_treelists] raise [TypeError]; no sequence is returned. *)
Lemma list_treelists_one_bad_element :
  fst (list_treelists None
         (fresh (always (ok (JObj
            [("treelists",
              JArr [treelist_json "t2" "d1" "Finished";
                    JObj (treelist_fields "t3" "d2" "Finished"
                          ++ [("owner", JStr "me")])%list])])))))
  = Raise TypeError.
Proof. reflexivity. Qed.

Lemma list_treelists_ordered_witness :
  fst (list_treelists (Some "d1") listing) =
  Return [treelist_record "t2" "d1" "Finished";
          treelist_record "t3" "d2" "Finished"] /\
  fst (list_treelists None (fresh (always (ok (JObj [("treelists", JArr [])])))))
  = Return [].
Proof.
  split.
  - apply (proj1 (proj2 (list_treelists_ordered (Some "d1") listing
                           (resp := ok remaining)
                           (fields := [("treelists",
                                        JArr [treelist_json "t2" "d1" "Finished";
                                              treelist_json "t3" "d2" "Finished"])])
                           eq_refl eq_refl eq_refl eq_refl))).
    repeat constructor.
  - exact (proj2 (proj2 (proj2 (proj2
             (list_treelists_ordered None
                (fresh (always (ok (JObj [("treelists", JArr [])]))))
                (resp := ok (JObj [("treelists", JArr [])]))
                (fields := [("treelists", JArr [])])
                eq_refl eq_refl eq_refl eq_refl)))) eq_refl).
Defined.

Lemma Treelist_decoding_consistent_witness :
  exists t2,
    Treelist_of (JObj (rev (treelist_fields "t1" "d1" "Finished"))) = Return t2 /\
    Treelist.fuelgrids t2 = JArr [JStr "fg1"; JStr "fg2"] /\
    Treelist.created_on t2 = mk_datetime 2023 4 5 6 7 8 0 None.
Proof.
  assert (forall k, lookup k (treelist_fields "t1" "d1" "Finished") =
                    lookup k (rev (treelist_fields "t1" "d1" "Finished")))
    as Hsame.
  { apply lookup_Permutation; [apply Permutation_rev|].
    cbn. repeat constructor; cbn; intuition discriminate. }
  assert (Treelist_of (treelist_json "t1" "d1" "Finished") =
          Return (treelist_record "t1" "d1" "Finished")) as H1 by reflexivity.
  destruct (Treelist_decoding_consistent _ _ Hsame H1)
    as (t2 & H2 & _ & _ & _ & _ & _ & _ & Hc & _ & Hf & _).
  exists t2. split; [exact H2|]. split.
  - now rewrite <- Hf.
  - now rewrite <- Hc.
Defined.
